(** * mytraffic: the traffic-light controller of [src/mytraffic.c]

    A shallow embedding of the kernel module's controller core: the
    [struct traffic_light], the timer callback that advances the light
    state machine, the two button interrupt handlers with their debounce
    cells, the character-device read and write operations and the
    initialisation of the state in [mytraffic_init].

    C [int] fields are integers of [Z] with the 32-bit two's-complement
    wrap-around written out (the kernel is built with
    [-fno-strict-overflow], so [cycle_count++] wraps); [unsigned long]
    arithmetic on [jiffies] wraps modulo [2^BITS_PER_LONG]; text is
    [string].  The [struct timer_list] member is a kernel object that is
    only re-armed, never inspected, and is left out of the record. *)

From Stdlib Require Import ZArith List String Ascii Bool Lia DecimalString.
Import ListNotations.
Local Open Scope Z_scope.

(** ** Constants *)

(** GPIO pin numbers. *)
Definition RED : Z := 67.
Definition YELLOW : Z := 68.
Definition GREEN : Z := 44.
Definition TOGGLE_BTN : Z := 26.
Definition PED_BTN : Z := 46.

Definition mytraffic_major : Z := 61.

(** Error numbers of [linux/errno.h]. *)
Definition ENOMEM : Z := 12.
Definition EFAULT : Z := 14.
Definition EINVAL : Z := 22.

(** ** Machine integers *)

(** A value reduced to the range of a 32-bit signed [int]. *)
Definition wrap_int (z : Z) : Z := (z + 2 ^ 31) mod 2 ^ 32 - 2 ^ 31.

(** [x++] on an [int]. *)
Definition int_incr (x : Z) : Z := wrap_int (x + 1).

(** [x % y] on [int]: C truncates the quotient toward zero. *)
Definition int_rem (x y : Z) : Z := Z.rem x y.

(** A value reduced to the range of a 32-bit [unsigned int]. *)
Definition wrap_uint (z : Z) : Z := z mod 2 ^ 32.

(** ** The light state *)

Inductive mode : Type :=
| NORMAL
| FLASHING_RED
| FLASHING_YELLOW.

Record traffic_light : Type := mk_traffic_light {
  current_mode : mode;
  cycle_count : Z;
  ped_cycle_count : Z;
  rate : Z;
  red_active : bool;
  yellow_active : bool;
  green_active : bool;
  ped_requested : bool;
  ped_crossing : bool;
  irq_toggle : Z;
  irq_ped : Z
}.

(** Field assignments [light->f = v]. *)
Definition set_current_mode (l : traffic_light) (v : mode) : traffic_light :=
  mk_traffic_light v (cycle_count l) (ped_cycle_count l) (rate l)
    (red_active l) (yellow_active l) (green_active l)
    (ped_requested l) (ped_crossing l) (irq_toggle l) (irq_ped l).

Definition set_cycle_count (l : traffic_light) (v : Z) : traffic_light :=
  mk_traffic_light (current_mode l) v (ped_cycle_count l) (rate l)
    (red_active l) (yellow_active l) (green_active l)
    (ped_requested l) (ped_crossing l) (irq_toggle l) (irq_ped l).

Definition set_ped_cycle_count (l : traffic_light) (v : Z) : traffic_light :=
  mk_traffic_light (current_mode l) (cycle_count l) v (rate l)
    (red_active l) (yellow_active l) (green_active l)
    (ped_requested l) (ped_crossing l) (irq_toggle l) (irq_ped l).

Definition set_rate (l : traffic_light) (v : Z) : traffic_light :=
  mk_traffic_light (current_mode l) (cycle_count l) (ped_cycle_count l) v
    (red_active l) (yellow_active l) (green_active l)
    (ped_requested l) (ped_crossing l) (irq_toggle l) (irq_ped l).

Definition set_red_active (l : traffic_light) (v : bool) : traffic_light :=
  mk_traffic_light (current_mode l) (cycle_count l) (ped_cycle_count l) (rate l)
    v (yellow_active l) (green_active l)
    (ped_requested l) (ped_crossing l) (irq_toggle l) (irq_ped l).

Definition set_yellow_active (l : traffic_light) (v : bool) : traffic_light :=
  mk_traffic_light (current_mode l) (cycle_count l) (ped_cycle_count l) (rate l)
    (red_active l) v (green_active l)
    (ped_requested l) (ped_crossing l) (irq_toggle l) (irq_ped l).

Definition set_green_active (l : traffic_light) (v : bool) : traffic_light :=
  mk_traffic_light (current_mode l) (cycle_count l) (ped_cycle_count l) (rate l)
    (red_active l) (yellow_active l) v
    (ped_requested l) (ped_crossing l) (irq_toggle l) (irq_ped l).

Definition set_ped_requested (l : traffic_light) (v : bool) : traffic_light :=
  mk_traffic_light (current_mode l) (cycle_count l) (ped_cycle_count l) (rate l)
    (red_active l) (yellow_active l) (green_active l)
    v (ped_crossing l) (irq_toggle l) (irq_ped l).

Definition set_ped_crossing (l : traffic_light) (v : bool) : traffic_light :=
  mk_traffic_light (current_mode l) (cycle_count l) (ped_cycle_count l) (rate l)
    (red_active l) (yellow_active l) (green_active l)
    (ped_requested l) v (irq_toggle l) (irq_ped l).

Definition set_irq_toggle (l : traffic_light) (v : Z) : traffic_light :=
  mk_traffic_light (current_mode l) (cycle_count l) (ped_cycle_count l) (rate l)
    (red_active l) (yellow_active l) (green_active l)
    (ped_requested l) (ped_crossing l) v (irq_ped l).

Definition set_irq_ped (l : traffic_light) (v : Z) : traffic_light :=
  mk_traffic_light (current_mode l) (cycle_count l) (ped_cycle_count l) (rate l)
    (red_active l) (yellow_active l) (green_active l)
    (ped_requested l) (ped_crossing l) (irq_toggle l) v.

(** The commanded outputs, in the order red, yellow, green. *)
Definition lights (l : traffic_light) : bool * bool * bool :=
  (red_active l, yellow_active l, green_active l).

Definition all_off : bool * bool * bool := (false, false, false).
Definition yellow_only : bool * bool * bool := (false, true, false).
Definition red_only : bool * bool * bool := (true, false, false).
Definition green_only : bool * bool * bool := (false, false, true).
Definition red_yellow : bool * bool * bool := (true, true, false).

(** ** Timer callback *)

(** The state after one run of [timer_callback]: the cycle counter is
    incremented first, then the branch of the current mode sets the three
    outputs.  The log lines and the re-arming of the timer at
    [jiffies + HZ / rate] leave the state untouched and are not part of the
    result. *)
Definition timer_callback (light : traffic_light) : traffic_light :=
  let light := set_cycle_count light (int_incr (cycle_count light)) in
  match current_mode light with
  | NORMAL =>
      if ped_crossing light then
        if ped_cycle_count light <? 5 then
          let light := set_red_active light true in
          let light := set_yellow_active light true in
          let light := set_green_active light false in
          set_ped_cycle_count light (int_incr (ped_cycle_count light))
        else
          let light := set_ped_crossing light false in
          let light := set_ped_requested light false in
          let light := set_ped_cycle_count light 0 in
          let light := set_cycle_count light 0 in
          let light := set_red_active light false in
          let light := set_yellow_active light false in
          set_green_active light true
      else
        let cycle_position := int_rem (cycle_count light) 6 in
        if cycle_position =? 3 then
          let light := set_red_active light false in
          let light := set_yellow_active light true in
          set_green_active light false
        else if (cycle_position =? 4) || (cycle_position =? 5) then
          let light := set_red_active light true in
          let light := set_yellow_active light false in
          let light := set_green_active light false in
          if ped_requested light then
            let light := set_ped_crossing light true in
            let light := set_ped_requested light false in
            let light := set_ped_cycle_count light 0 in
            set_yellow_active light true
          else light
        else
          let light := set_red_active light false in
          let light := set_yellow_active light false in
          set_green_active light true
  | FLASHING_RED =>
      let light := set_red_active light (int_rem (cycle_count light) 2 =? 1) in
      let light := set_yellow_active light false in
      set_green_active light false
  | FLASHING_YELLOW =>
      let light := set_red_active light false in
      let light := set_yellow_active light (int_rem (cycle_count light) 2 =? 1) in
      set_green_active light false
  end.

(** The [gpio_set_value] calls that end the callback, as (pin, value). *)
Definition timer_callback_gpio (light : traffic_light) : list (Z * bool) :=
  let light := timer_callback light in
  [ (RED, red_active light); (YELLOW, yellow_active light);
    (GREEN, green_active light) ].

(** The position in the 6-step cycle that a tick of [light] looks at:
    [cycle_count % 6] after the increment. *)
Definition cycle_position (light : traffic_light) : Z :=
  int_rem (int_incr (cycle_count light)) 6.

(** [n] successive ticks. *)
Fixpoint ticks (n : nat) (light : traffic_light) : traffic_light :=
  match n with
  | O => light
  | S k => ticks k (timer_callback light)
  end.

(** ** Module initialisation *)

(** What the kernel answers during [mytraffic_init].  [kmalloc] returns
    either NULL or a block whose bytes are whatever the allocator left
    there: [Some m] is a block that reads as [m] before any field is
    assigned. *)
Record init_env : Type := mk_init_env {
  register_chrdev : Z -> Z;
  kmalloc : option traffic_light;
  gpio_request : Z -> Z;
  gpio_to_irq : Z -> Z
}.

(** The return value of [mytraffic_init] and the state [t_light] points to
    when the module stays loaded ([None] on every path that frees it or
    never allocates it). *)
Definition mytraffic_init (e : init_env) : Z * option traffic_light :=
  let result := register_chrdev e mytraffic_major in
  if result <? 0 then (result, None) else
  match kmalloc e with
  | None => (- ENOMEM, None)
  | Some t_light =>
      let t_light := set_cycle_count t_light 0 in
      let t_light := set_rate t_light 1 in
      let t_light := set_red_active t_light false in
      let t_light := set_yellow_active t_light false in
      let t_light := set_green_active t_light true in
      let t_light := set_ped_requested t_light false in
      let t_light := set_ped_crossing t_light false in
      let result := gpio_request e RED in
      if negb (result =? 0) then (result, None) else
      let result := gpio_request e YELLOW in
      if negb (result =? 0) then (result, None) else
      let result := gpio_request e GREEN in
      if negb (result =? 0) then (result, None) else
      let t_light := set_current_mode t_light NORMAL in
      let result := gpio_request e TOGGLE_BTN in
      if negb (result =? 0) then (result, None) else
      let t_light := set_irq_toggle t_light (gpio_to_irq e TOGGLE_BTN) in
      let result := gpio_request e PED_BTN in
      if negb (result =? 0) then (result, None) else
      let t_light := set_irq_ped t_light (gpio_to_irq e PED_BTN) in
      (0, Some t_light)
  end.

(** ** Text helpers *)

Local Open Scope string_scope.
Local Open Scope Z_scope.

(** The line feed that ends each line of the status report. *)
Definition LF : string := String "010"%char EmptyString.

(** [%u]: an unsigned value in decimal. *)
Definition fmt_u (v : Z) : string :=
  NilEmpty.string_of_uint (N.to_uint (Z.to_N v)).

Definition strlen (s : string) : Z := Z.of_nat (String.length s).

(** [snprintf(dst, size, ...)] where the formatted text is [s]: at most
    [size - 1] characters are stored, and the length the whole text would
    have is returned. *)
Definition snprintf (size : Z) (s : string) : string * Z :=
  (substring 0 (Z.to_nat (size - 1)) s, strlen s).

(** The bytes of a buffer up to its first NUL, as the string functions of
    the kernel see it. *)
Fixpoint c_str (s : string) : string :=
  match s with
  | EmptyString => EmptyString
  | String c r => if Ascii.eqb c "000"%char then EmptyString else String c (c_str r)
  end.

(** [isspace] and [isdigit] of the kernel's character table. *)
Definition isspace (c : ascii) : bool :=
  let n := Z.of_nat (nat_of_ascii c) in
  ((9 <=? n) && (n <=? 13)) || (n =? 32) || (n =? 160).

Definition isdigit (c : ascii) : bool :=
  let n := Z.of_nat (nat_of_ascii c) in
  (48 <=? n) && (n <=? 57).

Fixpoint skip_spaces (s : string) : string :=
  match s with
  | EmptyString => EmptyString
  | String c r => if isspace c then skip_spaces r else s
  end.

(** The value of the leading run of decimal digits, accumulated from [acc]. *)
Fixpoint parse_digits (acc : Z) (s : string) : Z :=
  match s with
  | EmptyString => acc
  | String c r =>
      if isdigit c
      then parse_digits (acc * 10 + (Z.of_nat (nat_of_ascii c) - 48)) r
      else acc
  end.

(** [sscanf(kbuf, "%u", &new_rate)] as the kernel's [vsscanf] performs it:
    white space is skipped, the next character must be a decimal digit (no
    sign is accepted for [%u]), the run of digits is converted and stored
    into the [unsigned int].  [Some v] stands for a return value of 1 with
    [new_rate = v]; [None] for any other return value. *)
Definition sscanf_u (kbuf : string) : option Z :=
  let str := skip_spaces (c_str kbuf) in
  match str with
  | EmptyString => None
  | String digit _ =>
      if isdigit digit then Some (wrap_uint (parse_digits 0 str)) else None
  end.

(** ** Character device: read *)

(** The report assembled in [kbuf] by the four [snprintf] calls, with the
    accumulated [len]. *)
Definition status_report (t_light : traffic_light) : string * Z :=
  let size := 256 in
  let kbuf := "" in
  let len := 0 in
  let '(out, n) :=
    snprintf (size - len)
      ("Mode: " ++
       match current_mode t_light with
       | NORMAL => "normal"
       | FLASHING_RED => "flashing-red"
       | FLASHING_YELLOW => "flashing-yellow"
       end ++ LF) in
  let kbuf := kbuf ++ out in
  let len := len + n in
  let '(out, n) :=
    snprintf (size - len) ("Cycle Rate: " ++ fmt_u (rate t_light) ++ " Hz" ++ LF) in
  let kbuf := kbuf ++ out in
  let len := len + n in
  let '(out, n) :=
    snprintf (size - len)
      ("Lights: red " ++ (if red_active t_light then "on" else "off") ++
       ", yellow " ++ (if yellow_active t_light then "on" else "off") ++
       ", green " ++ (if green_active t_light then "on" else "off") ++ LF) in
  let kbuf := kbuf ++ out in
  let len := len + n in
  let '(out, n) :=
    snprintf (size - len)
      ("Pedestrian: " ++
       (if ped_requested t_light || ped_crossing t_light
        then "present" else "not present") ++ LF) in
  let kbuf := kbuf ++ out in
  let len := len + n in
  (kbuf, len).

(** The outcome of one [read] call. *)
Record read_result : Type := mk_read_result {
  read_ret : Z;
  read_data : string;
  read_f_pos : Z;
  read_light : traffic_light
}.

(** [mytraffic_read] of [count] bytes at offset [f_pos].  [writable] is
    the number of bytes the caller's buffer can take: [copy_to_user]
    fails when asked for more.  The result holds the return value, the
    bytes handed to the caller, the new offset and the light state after
    the call. *)
Definition mytraffic_read (t_light : traffic_light) (writable count f_pos : Z)
  : read_result :=
  let '(kbuf, len) := status_report t_light in
  if len <=? f_pos then mk_read_result 0 "" f_pos t_light else
  let count := if len - f_pos <? count then len - f_pos else count in
  if writable <? count then mk_read_result (- EFAULT) "" f_pos t_light else
  mk_read_result count
    (substring (Z.to_nat f_pos) (Z.to_nat count) kbuf)
    (f_pos + count) t_light.

(** ** Character device: write *)

(** [copy_from_user(kbuf, buf, count)]: [buf] holds the bytes readable at
    the caller's address; asking for more of them than there are fails. *)
Definition copy_from_user (buf : string) (count : Z) : option string :=
  if strlen buf <? count then None
  else Some (substring 0 (Z.to_nat count) buf).

(** [mytraffic_write]: the return value and the light state after it. *)
Definition mytraffic_write (t_light : traffic_light) (buf : string) (count : Z)
  : Z * traffic_light :=
  if 16 <=? count then (- EINVAL, t_light) else
  match copy_from_user buf count with
  | None => (- EFAULT, t_light)
  | Some kbuf =>
      match sscanf_u kbuf with
      | Some new_rate =>
          if (1 <=? new_rate) && (new_rate <=? 9)
          then (count, set_rate t_light new_rate)
          else (count, t_light)
      | None => (count, t_light)
      end
  end.

Local Close Scope string_scope.

(** Splits a goal about [timer_callback] into one goal per branch of the
    callback, keeping the tests of each branch as hypotheses. *)
Ltac tick_branches :=
  unfold timer_callback;
  cbn -[int_incr int_rem Z.ltb Z.eqb];
  repeat match goal with
         | |- context [match ?m with NORMAL => _ | _ => _ end] =>
             destruct m eqn:?
         | |- context [if ?c then _ else _] => destruct c eqn:?
         end;
  cbn -[int_incr int_rem Z.ltb Z.eqb].

(** ** Interrupt handlers *)

Section Platform.

(** The width of [unsigned long] and the kernel's [msecs_to_jiffies]
    depend on the target and its configuration. *)
Variable BITS_PER_LONG : Z.
Variable msecs_to_jiffies : Z -> Z.

(** [a - b] on [unsigned long]. *)
Definition ulong_sub (a b : Z) : Z := (a - b) mod 2 ^ BITS_PER_LONG.

(** Whether a press at [jiffies] falls inside the debounce period that
    follows [most_recent_interrupt]. *)
Definition debounced (jiffies most_recent_interrupt : Z) : bool :=
  ulong_sub jiffies most_recent_interrupt <? msecs_to_jiffies 250.

(** [toggle_interrupt_handler] run at time [jiffies]; the first component
    is the handler's static [most_recent_interrupt] after the call. *)
Definition toggle_interrupt_handler (jiffies most_recent_interrupt : Z)
    (light : traffic_light) : Z * traffic_light :=
  let current_interrupt := jiffies in
  if ulong_sub current_interrupt most_recent_interrupt <? msecs_to_jiffies 250
  then (most_recent_interrupt, light)
  else
    let most_recent_interrupt := current_interrupt in
    let light :=
      match current_mode light with
      | NORMAL => set_current_mode light FLASHING_RED
      | FLASHING_RED => set_current_mode light FLASHING_YELLOW
      | FLASHING_YELLOW => set_current_mode light NORMAL
      end in
    let light := set_cycle_count light 0 in
    (most_recent_interrupt, light).

(** [ped_interrupt_handler] run at time [jiffies], with its own static
    [most_recent_interrupt]. *)
Definition ped_interrupt_handler (jiffies most_recent_interrupt : Z)
    (light : traffic_light) : Z * traffic_light :=
  let current_interrupt := jiffies in
  if ulong_sub current_interrupt most_recent_interrupt <? msecs_to_jiffies 250
  then (most_recent_interrupt, light)
  else
    let most_recent_interrupt := current_interrupt in
    let light :=
      match current_mode light with
      | NORMAL => set_ped_requested light true
      | _ => light
      end in
    (most_recent_interrupt, light).

(** ** The controller as a whole *)

(** The light state together with the two debounce cells (the function
    statics of the handlers). *)
Record system : Type := mk_system {
  t_light : traffic_light;
  toggle_most_recent : Z;
  ped_most_recent : Z
}.

(** The system once [mytraffic_init] has returned 0: both statics are 0. *)
Definition boot (l : traffic_light) : system := mk_system l 0 0.

(** What can happen to a loaded module. *)
Inductive event : Type :=
| Tick
| TogglePress (jiffies : Z)
| PedPress (jiffies : Z)
| WriteRate (buf : string) (count : Z)
| ReadStatus (writable count f_pos : Z).

(** One operation at a time (the entry points do not overlap here). *)
Definition step (sys : system) (ev : event) : system :=
  match ev with
  | Tick =>
      mk_system (timer_callback (t_light sys))
        (toggle_most_recent sys) (ped_most_recent sys)
  | TogglePress j =>
      let '(m, l) := toggle_interrupt_handler j (toggle_most_recent sys) (t_light sys) in
      mk_system l m (ped_most_recent sys)
  | PedPress j =>
      let '(m, l) := ped_interrupt_handler j (ped_most_recent sys) (t_light sys) in
      mk_system l (toggle_most_recent sys) m
  | WriteRate buf count =>
      mk_system (snd (mytraffic_write (t_light sys) buf count))
        (toggle_most_recent sys) (ped_most_recent sys)
  | ReadStatus writable count f_pos =>
      mk_system (read_light (mytraffic_read (t_light sys) writable count f_pos))
        (toggle_most_recent sys) (ped_most_recent sys)
  end.

Definition run (sys : system) (evs : list event) : system :=
  fold_left step evs sys.

(** The states that follow [s0] by any sequence of ticks, button presses,
    writes and reads. *)
Inductive reachable_from (s0 : system) : system -> Prop :=
| reachable_start : reachable_from s0 s0
| reachable_step sys ev :
    reachable_from s0 sys -> reachable_from s0 (step sys ev).

(** The states the module can be in: those that follow the state a
    successful [mytraffic_init] leaves. *)
Definition reachable (sys : system) : Prop :=
  exists e l, mytraffic_init e = (0, Some l) /\ reachable_from (boot l) sys.

(** ** Concrete settings used in the examples *)

(** A block of zero bytes. *)
Definition zeroed : traffic_light :=
  mk_traffic_light NORMAL 0 0 0 false false false false false 0 0.

(** A block that was used before: a stale 7 where [ped_cycle_count] lies. *)
Definition stale : traffic_light :=
  mk_traffic_light FLASHING_YELLOW 12 7 3 true false true true false 0 0.

(** A kernel in which every request succeeds and [kmalloc] hands out the
    block [m]. *)
Definition ok_env (m : traffic_light) : init_env :=
  mk_init_env (fun _ => 0) (Some m) (fun _ => 0) (fun pin => 100 + pin).

(** A 32-bit target with HZ = 100. *)
Definition bits32 : Z := 32.
Definition msecs_to_jiffies_hz100 (m : Z) : Z := (m + 9) / 10.

(** The state [mytraffic_init] builds in a zeroed block when every request
    succeeds. *)
Definition fresh : traffic_light :=
  mk_traffic_light NORMAL 0 0 1 false false true false false 126 146.

(** The outputs after ticks [from], [from + 1], ... ([n] of them). *)
Definition tick_outputs (from n : nat) (l : traffic_light)
  : list (bool * bool * bool) :=
  map (fun k => lights (ticks k l)) (seq from n).

(** The normal cycle as the header comment of the source gives it. *)
Definition normal_cycle : list (bool * bool * bool) :=
  [green_only; green_only; green_only; yellow_only; red_only; red_only].

(** The five output combinations the callback can command. *)
Definition valid_lights (c : bool * bool * bool) : Prop :=
  c = all_off \/ c = yellow_only \/ c = red_only \/ c = green_only \/
  c = red_yellow.

(** The order in which the toggle button walks through the modes. *)
Definition next_mode (m : mode) : mode :=
  match m with
  | NORMAL => FLASHING_RED
  | FLASHING_RED => FLASHING_YELLOW
  | FLASHING_YELLOW => NORMAL
  end.

(** The status text of a freshly loaded module. *)
Definition fresh_report : string :=
  ("Mode: normal" ++ LF ++ "Cycle Rate: 1 Hz" ++ LF ++
   "Lights: red off, yellow off, green on" ++ LF ++
   "Pedestrian: not present" ++ LF)%string.

(** A pedestrian press, then the four ticks that bring the cycle to its
    first stop position: the crossing has just started. *)
Definition crossing_started : list event :=
  [PedPress 1000; Tick; Tick; Tick; Tick].

(** A second press while that crossing is under way. *)
Definition pressed_again : list event :=
  crossing_started ++ [PedPress 2000].

(** Five ticks into that crossing: the count has reached 5. *)
Definition crossing_fifth_tick : list event :=
  crossing_started ++ [Tick; Tick; Tick; Tick; Tick].

(** A state waiting at cycle count 3 with a request pending: the next
    tick is at position 4. *)
Definition waiting : traffic_light :=
  mk_traffic_light NORMAL 3 0 1 false true false true false 126 146.

(** ** Kernel calls of initialisation and exit *)

(** The calls [mytraffic_init] and [mytraffic_exit] make that acquire, use
    or release something, with the result of those that can fail. *)
Inductive kcall : Type :=
| k_register_chrdev (major result : Z)
| k_unregister_chrdev (major : Z)
| k_kmalloc (non_null : bool)
| k_kfree
| k_gpio_request (pin result : Z)
| k_gpio_free (pin : Z)
| k_gpio_direction_output (pin value : Z)
| k_gpio_direction_input (pin : Z)
| k_gpio_set_value (pin value : Z)
| k_request_irq (irq result : Z)
| k_free_irq (irq : Z)
| k_timer_setup
| k_mod_timer
| k_del_timer_sync.

(** The calls of [mytraffic_init] in the order the source makes them, with
    its return value.  [request_irq] gives the result of registering a
    handler for an interrupt number; the source does not look at it. *)
Definition mytraffic_init_trace (e : init_env) (request_irq : Z -> Z)
  : Z * list kcall :=
  let result := register_chrdev e mytraffic_major in
  let tr := [k_register_chrdev mytraffic_major result] in
  if result <? 0 then (result, tr) else
  match kmalloc e with
  | None =>
      (- ENOMEM,
       tr ++ [k_kmalloc false; k_unregister_chrdev mytraffic_major])
  | Some _ =>
      let tr := tr ++ [k_kmalloc true] in
      let result := gpio_request e RED in
      let tr := tr ++ [k_gpio_request RED result] in
      if negb (result =? 0) then
        (result, tr ++ [k_kfree; k_unregister_chrdev mytraffic_major])
      else
      let tr := tr ++ [k_gpio_direction_output RED 0] in
      let result := gpio_request e YELLOW in
      let tr := tr ++ [k_gpio_request YELLOW result] in
      if negb (result =? 0) then
        (result,
         tr ++ [k_gpio_free RED; k_kfree;
                k_unregister_chrdev mytraffic_major])
      else
      let tr := tr ++ [k_gpio_direction_output YELLOW 0] in
      let result := gpio_request e GREEN in
      let tr := tr ++ [k_gpio_request GREEN result] in
      if negb (result =? 0) then
        (result,
         tr ++ [k_gpio_free YELLOW; k_gpio_free RED; k_kfree;
                k_unregister_chrdev mytraffic_major])
      else
      let tr := tr ++ [k_gpio_direction_output GREEN 1] in
      let result := gpio_request e TOGGLE_BTN in
      let tr := tr ++ [k_gpio_request TOGGLE_BTN result] in
      if negb (result =? 0) then
        (result,
         tr ++ [k_gpio_free GREEN; k_gpio_free YELLOW; k_gpio_free RED;
                k_kfree; k_unregister_chrdev mytraffic_major])
      else
      let irq_toggle := gpio_to_irq e TOGGLE_BTN in
      let tr := tr ++ [k_gpio_direction_input TOGGLE_BTN;
                       k_request_irq irq_toggle (request_irq irq_toggle)] in
      let result := gpio_request e PED_BTN in
      let tr := tr ++ [k_gpio_request PED_BTN result] in
      if negb (result =? 0) then
        (result,
         tr ++ [k_gpio_free GREEN; k_gpio_free YELLOW; k_gpio_free RED;
                k_gpio_free TOGGLE_BTN; k_kfree;
                k_unregister_chrdev mytraffic_major])
      else
      let irq_ped := gpio_to_irq e PED_BTN in
      let tr := tr ++ [k_gpio_direction_input PED_BTN;
                       k_request_irq irq_ped (request_irq irq_ped);
                       k_timer_setup; k_mod_timer] in
      (0, tr)
  end.

(** The calls of [mytraffic_exit] for the state [light] that [t_light]
    points to; afterwards [t_light] is NULL. *)
Definition mytraffic_exit (light : traffic_light)
  : list kcall * option traffic_light :=
  ([ k_del_timer_sync;
     k_free_irq (irq_toggle light); k_free_irq (irq_ped light);
     k_gpio_set_value RED 0; k_gpio_set_value YELLOW 0;
     k_gpio_set_value GREEN 0;
     k_gpio_free TOGGLE_BTN; k_gpio_free PED_BTN;
     k_gpio_free RED; k_gpio_free YELLOW; k_gpio_free GREEN;
     k_kfree; k_unregister_chrdev mytraffic_major ],
   None).

(** What a module can hold of the kernel. *)
Inductive resource : Type :=
| Chrdev (major : Z)
| Block
| Gpio (pin : Z)
| Irq (irq : Z)
| Timer.

Definition resource_eqb (a b : resource) : bool :=
  match a, b with
  | Chrdev x, Chrdev y => x =? y
  | Block, Block => true
  | Gpio x, Gpio y => x =? y
  | Irq x, Irq y => x =? y
  | Timer, Timer => true
  | _, _ => false
  end.

Definition holds (r : resource) (held : list resource) : bool :=
  existsb (resource_eqb r) held.

(** Giving back [r]: [None] when it is not held. *)
Fixpoint release (r : resource) (held : list resource)
  : option (list resource) :=
  match held with
  | [] => None
  | h :: t =>
      if resource_eqb r h then Some t
      else option_map (cons h) (release r t)
  end.

(** The effect of one call on what is held; [None] when the call uses or
    gives back something that is not held. *)
Definition kcall_step (held : list resource) (c : kcall)
  : option (list resource) :=
  match c with
  | k_register_chrdev major result =>
      if result <? 0 then Some held else Some (Chrdev major :: held)
  | k_unregister_chrdev major => release (Chrdev major) held
  | k_kmalloc non_null => if non_null then Some (Block :: held) else Some held
  | k_kfree => release Block held
  | k_gpio_request pin result =>
      if result =? 0 then Some (Gpio pin :: held) else Some held
  | k_gpio_free pin => release (Gpio pin) held
  | k_gpio_direction_output pin _ | k_gpio_direction_input pin
  | k_gpio_set_value pin _ =>
      if holds (Gpio pin) held then Some held else None
  | k_request_irq irq result =>
      if result =? 0 then Some (Irq irq :: held) else Some held
  | k_free_irq irq => release (Irq irq) held
  | k_timer_setup => if holds Block held then Some held else None
  | k_mod_timer =>
      if holds Block held
      then Some (if holds Timer held then held else Timer :: held)
      else None
  | k_del_timer_sync =>
      match release Timer held with
      | Some held' => Some held'
      | None => Some held
      end
  end.

Fixpoint kcalls_run (held : list resource) (calls : list kcall)
  : option (list resource) :=
  match calls with
  | [] => Some held
  | c :: rest =>
      match kcall_step held c with
      | Some held' => kcalls_run held' rest
      | None => None
      end
  end.

(** A kernel in which everything succeeds except the request for GPIO
    [pin]. *)
Definition env_failing_gpio (pin : Z) : init_env :=
  mk_init_env (fun _ => 0) (Some zeroed)
    (fun p => if p =? pin then -16 else 0) (fun p => 100 + p).

(** The outputs of the normal cycle at position [p]. *)
Definition phase_lights (p : Z) : bool * bool * bool :=
  if p =? 3 then yellow_only
  else if (p =? 4) || (p =? 5) then red_only
  else green_only.

(** Whether a flashing light is on when the cycle counter is [c]: the
    test [c % 2 == 1] of the source, which an odd counter passes only when
    it is positive. *)
Definition flash_on (c : Z) : bool := (0 <? c) && Z.odd c.

(** The outputs of the flashing modes when the cycle counter is [c]. *)
Definition flash_lights (m : mode) (c : Z) : bool * bool * bool :=
  match m with
  | FLASHING_RED => (flash_on c, false, false)
  | _ => (false, flash_on c, false)
  end.

(** [INT_MAX] and [INT_MIN] of a 32-bit [int]. *)
Definition INT_MAX : Z := 2 ^ 31 - 1.
Definition INT_MIN : Z := - 2 ^ 31.

(** The four lines of the report, as the format strings of
    [mytraffic_read] spell them, with nothing cut off. *)
Definition full_report (l : traffic_light) : string :=
  ("Mode: " ++
   match current_mode l with
   | NORMAL => "normal"
   | FLASHING_RED => "flashing-red"
   | FLASHING_YELLOW => "flashing-yellow"
   end ++ LF ++
   "Cycle Rate: " ++ fmt_u (rate l) ++ " Hz" ++ LF ++
   "Lights: red " ++ (if red_active l then "on" else "off") ++
   ", yellow " ++ (if yellow_active l then "on" else "off") ++
   ", green " ++ (if green_active l then "on" else "off") ++ LF ++
   "Pedestrian: " ++
   (if ped_requested l || ped_crossing l then "present" else "not present") ++
   LF)%string.

(** The value of a decimal digit character. *)
Definition digit_value (c : ascii) : Z := Z.of_nat (nat_of_ascii c) - 48.

(** Two light states that agree on everything except, while no crossing
    is under way, the value of [ped_cycle_count]. *)
Definition same_but_idle_count (a b : traffic_light) : Prop :=
  current_mode a = current_mode b /\ cycle_count a = cycle_count b /\
  rate a = rate b /\ lights a = lights b /\
  ped_requested a = ped_requested b /\ ped_crossing a = ped_crossing b /\
  irq_toggle a = irq_toggle b /\ irq_ped a = irq_ped b /\
  (ped_crossing a = true -> ped_cycle_count a = ped_cycle_count b).

(** A NORMAL state in a red phase with a request pending and the counter
    at [INT_MAX]. *)
Definition at_int_max : traffic_light :=
  mk_traffic_light NORMAL 2147483647 0 1 true false false true false 126 146.

(** A crossing interrupted by a toggle press: FLASHING_RED, counter 0, the
    crossing three ticks old. *)
Definition interrupted_crossing : traffic_light :=
  mk_traffic_light FLASHING_RED 0 3 1 true true false false true 126 146.

(** A NORMAL state whose counter has wrapped and is still negative. *)
Definition negative_count : traffic_light :=
  mk_traffic_light NORMAL (-4) 0 1 false false true false false 126 146.

(** * Properties *)

(** ** Initialisation *)

(** Every field of the state a successful [mytraffic_init] leaves, in
    terms of the block [kmalloc] returned: [ped_cycle_count] is the one
    field that keeps what the block held. *)
Lemma mytraffic_init_success (e : init_env) (l : traffic_light) :
  mytraffic_init e = (0, Some l) ->
  exists m,
    kmalloc e = Some m /\
    l = mk_traffic_light NORMAL 0 (ped_cycle_count m) 1
          false false true false false
          (gpio_to_irq e TOGGLE_BTN) (gpio_to_irq e PED_BTN).
Proof.
  unfold mytraffic_init.
  destruct (register_chrdev e mytraffic_major <? 0); [discriminate|].
  destruct (kmalloc e) as [m|]; [|discriminate].
  repeat match goal with
         | |- context [if negb (?r =? 0) then _ else _] =>
             destruct (negb (r =? 0)) eqn:?; [intros H; inversion H; subst; discriminate|]
         end.
  intros H. inversion H; subst. exists m. split; reflexivity.
Qed.

Lemma mytraffic_init_ok_env (m : traffic_light) :
  mytraffic_init (ok_env m) =
  (0, Some (mk_traffic_light NORMAL 0 (ped_cycle_count m) 1
              false false true false false 126 146)).
Proof. reflexivity. Qed.

(** C7 (the code at a block that is not zeroed).  With every kernel
    request succeeding and [kmalloc] handing out a block used before,
    [mytraffic_init] returns 0 and leaves mode NORMAL, green on, red and
    yellow off, rate 1, cycle_count 0 and both pedestrian flags false, but
    [ped_cycle_count] still holds the stale 7 of the block: no assignment
    of the initialisation touches that field. *)
Theorem C7_init_keeps_stale_ped_cycle_count :
  exists l,
    mytraffic_init (ok_env stale) = (0, Some l) /\
    current_mode l = NORMAL /\ green_active l = true /\
    red_active l = false /\ yellow_active l = false /\
    rate l = 1 /\ cycle_count l = 0 /\
    ped_requested l = false /\ ped_crossing l = false /\
    ped_cycle_count l = 7 /\ ped_cycle_count l <> 0.
Proof.
  eexists. split; [apply mytraffic_init_ok_env|].
  cbn. repeat split; try reflexivity. discriminate.
Qed.

(** ** The normal cycle *)

(** C1 (amended).  From the state a successful initialisation leaves, and
    with ticks only, the outputs before the first tick and after each of
    the first five ticks are green, green, green, yellow, red, red, and the
    outputs after ticks 6 to 11 are that sequence again.  Counted from the
    first tick the outputs read green, green, yellow, red, red, green for
    ticks 1 to 6 and the same for ticks 7 to 12. *)
Theorem C1_normal_cycle_from_fresh (e : init_env) (l : traffic_light) :
  mytraffic_init e = (0, Some l) ->
  lights l :: tick_outputs 1 5 l = normal_cycle /\
  tick_outputs 6 6 l = normal_cycle /\
  tick_outputs 1 6 l =
    [green_only; green_only; yellow_only; red_only; red_only; green_only] /\
  tick_outputs 7 6 l = tick_outputs 1 6 l.
Proof.
  intros H. destruct (mytraffic_init_success e l H) as (m & _ & ->).
  repeat split; vm_compute; reflexivity.
Qed.

(** ** Output combinations *)

(** Whatever the state before it, a tick commands one of the five
    combinations. *)
Lemma timer_callback_lights_valid (l : traffic_light) :
  valid_lights (lights (timer_callback l)).
Proof.
  destruct l as [m cc pcc r red yel grn req crs it ip].
  unfold valid_lights, lights, all_off, yellow_only, red_only, green_only,
    red_yellow.
  tick_branches; try destruct (_ =? 1); auto 10.
Qed.

(** The pins are driven with the outputs of the new state. *)
Lemma timer_callback_gpio_lights (l : traffic_light) :
  timer_callback_gpio l =
  [ (RED, fst (fst (lights (timer_callback l))));
    (YELLOW, snd (fst (lights (timer_callback l))));
    (GREEN, snd (lights (timer_callback l))) ].
Proof. reflexivity. Qed.

(** The fields a tick never writes. *)
Lemma timer_callback_frame (l : traffic_light) :
  current_mode (timer_callback l) = current_mode l /\
  rate (timer_callback l) = rate l /\
  irq_toggle (timer_callback l) = irq_toggle l /\
  irq_ped (timer_callback l) = irq_ped l.
Proof.
  destruct l as [m cc pcc r red yel grn req crs it ip].
  tick_branches; repeat split; congruence.
Qed.

(** The same for any number of ticks. *)
Lemma timer_callback_frame_ticks (n : nat) (l : traffic_light) :
  current_mode (ticks n l) = current_mode l /\
  rate (ticks n l) = rate l /\
  irq_toggle (ticks n l) = irq_toggle l /\
  irq_ped (ticks n l) = irq_ped l.
Proof.
  revert l. induction n as [|n IH]; intros l; [repeat split|].
  cbn [ticks].
  destruct (IH (timer_callback l)) as (-> & -> & -> & ->).
  apply timer_callback_frame.
Qed.

(** ** Pedestrian crossing, tick by tick *)

Lemma ticks_S_last (n : nat) (l : traffic_light) :
  ticks (S n) l = timer_callback (ticks n l).
Proof.
  revert l. induction n as [|n IH]; intros l; [reflexivity|].
  change (ticks (S (S n)) l) with (ticks (S n) (timer_callback l)).
  rewrite IH. reflexivity.
Qed.

(** Away from [INT_MAX] the increment does not wrap. *)
Lemma int_incr_small (p : Z) :
  - 2 ^ 31 <= p < 2 ^ 31 - 1 -> int_incr p = p + 1.
Proof.
  intros H. unfold int_incr, wrap_int.
  rewrite Z.mod_small; lia.
Qed.

(** The tick that grants the crossing: NORMAL mode, no crossing under way,
    a request pending and the cycle at position 4 or 5. *)
Lemma crossing_start (l : traffic_light) :
  current_mode l = NORMAL -> ped_crossing l = false ->
  ped_requested l = true ->
  cycle_position l = 4 \/ cycle_position l = 5 ->
  timer_callback l =
  mk_traffic_light NORMAL (int_incr (cycle_count l)) 0 (rate l)
    true true false false true (irq_toggle l) (irq_ped l).
Proof.
  destruct l as [m cc pcc r red yel grn req crs it ip].
  unfold cycle_position. cbn -[int_incr int_rem].
  intros -> -> -> Hpos.
  unfold timer_callback. cbn -[int_incr int_rem Z.eqb].
  destruct Hpos as [-> | ->]; reflexivity.
Qed.

(** A tick during the crossing, before the count has reached 5. *)
Lemma crossing_tick (l : traffic_light) :
  current_mode l = NORMAL -> ped_crossing l = true ->
  ped_cycle_count l < 5 ->
  timer_callback l =
  mk_traffic_light NORMAL (int_incr (cycle_count l))
    (int_incr (ped_cycle_count l)) (rate l)
    true true false (ped_requested l) true (irq_toggle l) (irq_ped l).
Proof.
  destruct l as [m cc pcc r red yel grn req crs it ip].
  cbn -[int_incr]. intros -> -> Hlt.
  unfold timer_callback. cbn -[int_incr int_rem Z.ltb].
  apply Z.ltb_lt in Hlt. rewrite Hlt. reflexivity.
Qed.

(** The tick that finds the count at 5 (or beyond) ends the crossing. *)
Lemma crossing_complete (l : traffic_light) :
  current_mode l = NORMAL -> ped_crossing l = true ->
  5 <= ped_cycle_count l ->
  timer_callback l =
  mk_traffic_light NORMAL 0 0 (rate l)
    false false true false false (irq_toggle l) (irq_ped l).
Proof.
  destruct l as [m cc pcc r red yel grn req crs it ip].
  cbn. intros -> -> Hge.
  unfold timer_callback. cbn -[int_incr int_rem Z.ltb].
  apply Z.ltb_ge in Hge. rewrite Hge. reflexivity.
Qed.

(** [n] ticks into a crossing whose count started at [ped_cycle_count l]:
    the outputs are red with yellow after each of them, as long as the
    count stays within 5. *)
Lemma crossing_progress (n : nat) :
  forall l,
    current_mode l = NORMAL -> ped_crossing l = true ->
    0 <= ped_cycle_count l -> ped_cycle_count l + Z.of_nat n <= 5 ->
    current_mode (ticks n l) = NORMAL /\
    ped_crossing (ticks n l) = true /\
    ped_cycle_count (ticks n l) = ped_cycle_count l + Z.of_nat n /\
    ((0 < n)%nat -> lights (ticks n l) = red_yellow).
Proof.
  induction n as [|n IH]; intros l Hm Hc H0 H5.
  - cbn [ticks]. repeat split; try assumption; lia.
  - rewrite ticks_S_last.
    destruct (IH l Hm Hc H0 ltac:(lia)) as (Hm' & Hc' & Hp' & _).
    rewrite (crossing_tick (ticks n l) Hm' Hc' ltac:(lia)).
    cbn [current_mode ped_crossing ped_cycle_count lights red_active
           yellow_active green_active].
    rewrite Hp', int_incr_small by lia.
    repeat split; try reflexivity. lia.
Qed.

(** C3.  In NORMAL mode with a pedestrian request pending, a tick commands
    other outputs than it would without the request only when no crossing
    is under way and the cycle position of that tick ([cycle_count % 6]
    after the increment) is 4 or 5; at any other position the request stays
    pending.  On the tick at position 4 or 5 the crossing starts: red and
    yellow on, green off, [ped_requested] cleared, [ped_crossing] set,
    [ped_cycle_count] 0.  Each of the next five ticks keeps red and yellow
    on and green off, and the sixth tick after the start turns green on
    alone, with [cycle_count] 0 and [ped_crossing] cleared. *)
Theorem C3_request_served_in_stop_phase (l : traffic_light) :
  current_mode l = NORMAL -> ped_requested l = true ->
  (lights (timer_callback l) <>
     lights (timer_callback (set_ped_requested l false)) ->
   ped_crossing l = false /\ (cycle_position l = 4 \/ cycle_position l = 5)) /\
  (ped_crossing l = false ->
   cycle_position l <> 4 -> cycle_position l <> 5 ->
   ped_requested (timer_callback l) = true /\
   ped_crossing (timer_callback l) = false) /\
  (ped_crossing l = false ->
   cycle_position l = 4 \/ cycle_position l = 5 ->
   lights (timer_callback l) = red_yellow /\
   ped_requested (timer_callback l) = false /\
   ped_crossing (timer_callback l) = true /\
   ped_cycle_count (timer_callback l) = 0 /\
   (forall k, (1 <= k <= 5)%nat ->
      lights (ticks k (timer_callback l)) = red_yellow) /\
   lights (ticks 6 (timer_callback l)) = green_only /\
   cycle_count (ticks 6 (timer_callback l)) = 0 /\
   ped_crossing (ticks 6 (timer_callback l)) = false).
Proof.
  intros Hm Hreq. split; [|split].
  - destruct l as [m cc pcc r red yel grn req crs it ip].
    cbn in Hm, Hreq. subst m req.
    unfold cycle_position, timer_callback.
    cbn -[int_incr int_rem Z.eqb Z.ltb].
    destruct crs.
    + destruct (pcc <? 5); intros H; exfalso; apply H; reflexivity.
    + destruct (int_rem (int_incr cc) 6 =? 3);
        [intros H; exfalso; apply H; reflexivity|].
      destruct (int_rem (int_incr cc) 6 =? 4) eqn:H4.
      { apply Z.eqb_eq in H4. auto. }
      destruct (int_rem (int_incr cc) 6 =? 5) eqn:H5.
      { apply Z.eqb_eq in H5. auto. }
      intros H; exfalso; apply H; reflexivity.
  - destruct l as [m cc pcc r red yel grn req crs it ip].
    cbn in Hm, Hreq. subst m req.
    unfold cycle_position, timer_callback.
    cbn -[int_incr int_rem Z.eqb Z.ltb].
    intros -> H4 H5.
    apply Z.eqb_neq in H4. apply Z.eqb_neq in H5. rewrite H4, H5.
    destruct (int_rem (int_incr cc) 6 =? 3); split; reflexivity.
  - intros Hc Hpos.
    rewrite (crossing_start l Hm Hc Hreq Hpos).
    set (s := mk_traffic_light NORMAL (int_incr (cycle_count l)) 0 (rate l)
                true true false false true (irq_toggle l) (irq_ped l)).
    assert (Hprog : forall k, (k <= 5)%nat ->
              current_mode (ticks k s) = NORMAL /\
              ped_crossing (ticks k s) = true /\
              ped_cycle_count (ticks k s) = Z.of_nat k /\
              ((0 < k)%nat -> lights (ticks k s) = red_yellow)).
    { intros k Hk.
      apply (crossing_progress k s); try reflexivity; cbn; lia. }
    destruct (Hprog 5%nat (le_n _)) as (Hm5 & Hc5 & Hp5 & _).
    assert (H6 : ticks 6 s =
                 mk_traffic_light NORMAL 0 0 (rate l)
                   false false true false false (irq_toggle l) (irq_ped l)).
    { rewrite ticks_S_last.
      rewrite (crossing_complete _ Hm5 Hc5) by lia.
      destruct (timer_callback_frame_ticks 5 s) as (_ & -> & -> & ->).
      reflexivity. }
    rewrite H6.
    do 4 (split; [reflexivity|]).
    split; [|repeat split; reflexivity].
    intros k [Hk1 Hk5]. apply (Hprog k Hk5). lia.
Qed.

(** ** Read and write *)

(** A read hands back the light state it was given, whatever the offset,
    the count and the caller's buffer. *)
Lemma mytraffic_read_light (l : traffic_light) (writable count f_pos : Z) :
  read_light (mytraffic_read l writable count f_pos) = l.
Proof.
  unfold mytraffic_read.
  destruct (status_report l) as [kbuf len].
  destruct (len <=? f_pos); [reflexivity|].
  destruct (writable <? _); reflexivity.
Qed.

(** A write either stores a parsed value between 1 and 9 into [rate] or
    leaves the whole state as it was. *)
Lemma mytraffic_write_cases (l : traffic_light) (buf : string) (count : Z) :
  snd (mytraffic_write l buf count) = l \/
  exists kbuf v,
    count < 16 /\ copy_from_user buf count = Some kbuf /\
    sscanf_u kbuf = Some v /\ 1 <= v <= 9 /\
    mytraffic_write l buf count = (count, set_rate l v).
Proof.
  unfold mytraffic_write.
  destruct (16 <=? count) eqn:Hc; [left; reflexivity|].
  destruct (copy_from_user buf count) as [kbuf|] eqn:Hk; [|left; reflexivity].
  destruct (sscanf_u kbuf) as [v|] eqn:Hs; [|left; reflexivity].
  destruct ((1 <=? v) && (v <=? 9)) eqn:Hv; [|left; reflexivity].
  right. exists kbuf, v.
  apply andb_true_iff in Hv. destruct Hv as [H1 H9].
  apply Z.leb_le in H1. apply Z.leb_le in H9. apply Z.leb_gt in Hc.
  repeat split; try assumption; reflexivity.
Qed.

(** C8 (amended).  A write of fewer than 16 bytes, all of them readable
    from the caller's buffer, returns [count], whether the text parsed and
    whether the parsed value was in range.  A write of 16 bytes or more
    returns -EINVAL and a write whose bytes cannot be copied returns
    -EFAULT; both leave the state as it was. *)
Theorem C8_write_return_value (l : traffic_light) (buf : string) (count : Z) :
  (count < 16 -> count <= strlen buf ->
   fst (mytraffic_write l buf count) = count) /\
  (16 <= count -> mytraffic_write l buf count = (- EINVAL, l)) /\
  (count < 16 -> strlen buf < count ->
   mytraffic_write l buf count = (- EFAULT, l)).
Proof.
  unfold mytraffic_write, copy_from_user.
  repeat split.
  - intros Hc Hb.
    apply Z.leb_gt in Hc. rewrite Hc.
    apply Z.ltb_ge in Hb. rewrite Hb.
    destruct (sscanf_u _) as [v|]; [|reflexivity].
    destruct ((1 <=? v) && (v <=? 9)); reflexivity.
  - intros Hc. apply Z.leb_le in Hc. rewrite Hc. reflexivity.
  - intros Hc Hb.
    apply Z.leb_gt in Hc. rewrite Hc.
    apply Z.ltb_lt in Hb. rewrite Hb. reflexivity.
Qed.

(** The report of a state with the field values a fresh module has, and
    its length. *)
Lemma status_report_fresh (pcc it ip : Z) :
  status_report
    (mk_traffic_light NORMAL 0 pcc 1 false false true false false it ip) =
  (fresh_report, 92).
Proof. vm_compute. reflexivity. Qed.

(** C9.  Read at offset 0 with room for the whole report, the state a
    successful initialisation leaves yields exactly the four lines
    "Mode: normal", "Cycle Rate: 1 Hz",
    "Lights: red off, yellow off, green on" and "Pedestrian: not present",
    each ended by a line feed; the call returns the length of that text,
    moves the offset to its end and leaves the light state as it was. *)
Theorem C9_fresh_status_report (e : init_env) (l : traffic_light)
    (writable count : Z) :
  mytraffic_init e = (0, Some l) ->
  strlen fresh_report <= count -> strlen fresh_report <= writable ->
  read_data (mytraffic_read l writable count 0) = fresh_report /\
  read_ret (mytraffic_read l writable count 0) = strlen fresh_report /\
  read_f_pos (mytraffic_read l writable count 0) = strlen fresh_report /\
  read_light (mytraffic_read l writable count 0) = l.
Proof.
  intros Hinit Hcount Hwr.
  destruct (mytraffic_init_success e l Hinit) as (m & _ & ->).
  change (strlen fresh_report) with 92 in *.
  unfold mytraffic_read. rewrite status_report_fresh.
  change (92 <=? 0) with false. cbv iota.
  replace (if 92 - 0 <? count then 92 - 0 else count) with 92
    by (destruct (92 - 0 <? count) eqn:H; [reflexivity|apply Z.ltb_ge in H; lia]).
  apply Z.ltb_ge in Hwr. rewrite Hwr.
  repeat split.
Qed.

(** ** Button handlers *)

(** A press inside the debounce period changes neither the light state nor
    the handler's time stamp. *)
Lemma toggle_interrupt_handler_ignored (j last : Z) (l : traffic_light) :
  debounced j last = true ->
  toggle_interrupt_handler j last l = (last, l).
Proof.
  unfold debounced, toggle_interrupt_handler.
  intros ->. reflexivity.
Qed.

(** An accepted toggle press moves the mode one step on and zeroes the
    cycle counter. *)
Lemma toggle_interrupt_handler_accepted (j last : Z) (l : traffic_light) :
  debounced j last = false ->
  toggle_interrupt_handler j last l =
  (j, set_cycle_count (set_current_mode l (next_mode (current_mode l))) 0).
Proof.
  unfold debounced, toggle_interrupt_handler.
  intros ->. destruct l as [m cc pcc r red yel grn req crs it ip].
  destruct m; reflexivity.
Qed.

Lemma ped_interrupt_handler_ignored (j last : Z) (l : traffic_light) :
  debounced j last = true ->
  ped_interrupt_handler j last l = (last, l).
Proof.
  unfold debounced, ped_interrupt_handler.
  intros ->. reflexivity.
Qed.

(** An accepted pedestrian press sets [ped_requested] in NORMAL mode and
    does nothing to the light state in the flashing modes. *)
Lemma ped_interrupt_handler_accepted (j last : Z) (l : traffic_light) :
  debounced j last = false ->
  ped_interrupt_handler j last l =
  (j, match current_mode l with
      | NORMAL => set_ped_requested l true
      | _ => l
      end).
Proof.
  unfold debounced, ped_interrupt_handler.
  intros ->. reflexivity.
Qed.

(** Running a list of events from [s0] gives a state that follows [s0]. *)
Lemma reachable_from_run (s0 : system) (evs : list event) :
  reachable_from s0 (run s0 evs).
Proof.
  induction evs as [|ev evs IH] using rev_ind.
  - apply reachable_start.
  - unfold run. rewrite fold_left_app. cbn [fold_left].
    apply reachable_step. exact IH.
Qed.

(** A property of the light state that the start state has and that each
    entry point keeps holds in every state that follows. *)
Lemma reachable_from_invariant (P : traffic_light -> Prop) (s0 : system) :
  P (t_light s0) ->
  (forall l, P l -> P (timer_callback l)) ->
  (forall l, P l ->
     P (set_cycle_count (set_current_mode l (next_mode (current_mode l))) 0)) ->
  (forall l, P l -> current_mode l = NORMAL -> P (set_ped_requested l true)) ->
  (forall l v, P l -> 1 <= v <= 9 -> P (set_rate l v)) ->
  forall sys, reachable_from s0 sys -> P (t_light sys).
Proof.
  intros H0 Htick Htoggle Hped Hwrite sys Hr.
  induction Hr as [|sys ev Hr IH]; [exact H0|].
  destruct ev as [|j|j|buf count|writable count f_pos];
    unfold step.
  - apply Htick, IH.
  - destruct (debounced j (toggle_most_recent sys)) eqn:Hd.
    + rewrite (toggle_interrupt_handler_ignored _ _ _ Hd). exact IH.
    + rewrite (toggle_interrupt_handler_accepted _ _ _ Hd). cbn [t_light].
      apply Htoggle, IH.
  - destruct (debounced j (ped_most_recent sys)) eqn:Hd.
    + rewrite (ped_interrupt_handler_ignored _ _ _ Hd). exact IH.
    + rewrite (ped_interrupt_handler_accepted _ _ _ Hd).
      cbn [t_light].
      destruct (current_mode (t_light sys)) eqn:Hm; auto.
  - destruct (mytraffic_write_cases (t_light sys) buf count)
      as [-> | (kbuf & v & _ & _ & _ & Hv & ->)]; [exact IH|].
    cbn [t_light snd]. apply Hwrite; assumption.
  - cbn [t_light]. rewrite mytraffic_read_light. exact IH.
Qed.

(** C2.  In every state the module can reach from a successful
    initialisation by ticks, toggle presses, pedestrian presses, rate
    writes and status reads in any order, the outputs (red, yellow, green)
    are all off, yellow only, red only, green only or red with yellow; red
    with green, yellow with green and all three on do not occur. *)
Theorem C2_outputs_one_of_five (sys : system) :
  reachable sys ->
  valid_lights (lights (t_light sys)) /\
  lights (t_light sys) <> (true, false, true) /\
  lights (t_light sys) <> (false, true, true) /\
  lights (t_light sys) <> (true, true, true).
Proof.
  intros (e & l & Hinit & Hr).
  assert (Hv : valid_lights (lights (t_light sys))).
  { apply (reachable_from_invariant (fun l => valid_lights (lights l)) (boot l));
      try assumption.
    - destruct (mytraffic_init_success e l Hinit) as (m & _ & ->).
      cbn. unfold valid_lights, green_only. auto 10.
    - intros l0 _. apply timer_callback_lights_valid.
    - intros l0 H. exact H.
    - intros l0 H _. exact H.
    - intros l0 v H _. exact H. }
  split; [exact Hv|].
  unfold valid_lights, all_off, yellow_only, red_only, green_only, red_yellow in Hv.
  repeat split; intros Heq; rewrite Heq in Hv;
    repeat (destruct Hv as [Hv|Hv]; try discriminate); discriminate.
Qed.

(** C4 (amended).  From a state in which [ped_requested] and
    [ped_crossing] are not both true, a tick, a toggle press, a rate write
    and a status read all lead to a state in which they are not both true.
    A pedestrian press leads to a state with both true exactly when it is
    accepted (outside the debounce period) in NORMAL mode while a crossing
    is under way. *)
Theorem C4_request_and_crossing_flags (l : traffic_light) :
  ped_requested l && ped_crossing l = false ->
  ped_requested (timer_callback l) && ped_crossing (timer_callback l) = false /\
  (forall j last,
     let l' := snd (toggle_interrupt_handler j last l) in
     ped_requested l' && ped_crossing l' = false) /\
  (forall buf count,
     let l' := snd (mytraffic_write l buf count) in
     ped_requested l' && ped_crossing l' = false) /\
  (forall writable count f_pos,
     let l' := read_light (mytraffic_read l writable count f_pos) in
     ped_requested l' && ped_crossing l' = false) /\
  (forall j last,
     let l' := snd (ped_interrupt_handler j last l) in
     ped_requested l' && ped_crossing l' = true <->
     debounced j last = false /\ current_mode l = NORMAL /\
     ped_crossing l = true).
Proof.
  intros H. split; [|split; [|split; [|split]]].
  - destruct l as [m cc pcc r red yel grn req crs it ip].
    cbn in H. tick_branches; subst; try assumption; reflexivity.
  - intros j last. cbv zeta.
    destruct (debounced j last) eqn:Hd.
    + rewrite (toggle_interrupt_handler_ignored _ _ _ Hd). exact H.
    + rewrite (toggle_interrupt_handler_accepted _ _ _ Hd). exact H.
  - intros buf count. cbv zeta.
    destruct (mytraffic_write_cases l buf count)
      as [-> | (kbuf & v & _ & _ & _ & _ & ->)]; exact H.
  - intros writable count f_pos. cbv zeta.
    rewrite mytraffic_read_light. exact H.
  - intros j last. cbv zeta.
    destruct (debounced j last) eqn:Hd.
    + rewrite (ped_interrupt_handler_ignored _ _ _ Hd). cbn [snd].
      split; [congruence|]. intros (Hf & _). discriminate.
    + rewrite (ped_interrupt_handler_accepted _ _ _ Hd). cbn [snd].
      destruct (current_mode l).
      * cbn. split; [intros Hc; repeat split; exact Hc|intros (_ & _ & Hc); exact Hc].
      * split; [congruence|]. intros (_ & Hf & _). discriminate.
      * split; [congruence|]. intros (_ & Hf & _). discriminate.
Qed.

(** C5 (amended).  When the state a successful initialisation leaves has
    [ped_cycle_count] 0, every state that follows it has
    [0 <= ped_cycle_count <= 5].  The tick that starts a crossing and the
    tick that completes one both leave [ped_cycle_count] at 0. *)
Theorem C5_ped_cycle_count_range (e : init_env) (l0 : traffic_light)
    (sys : system) :
  mytraffic_init e = (0, Some l0) -> ped_cycle_count l0 = 0 ->
  reachable_from (boot l0) sys ->
  0 <= ped_cycle_count (t_light sys) <= 5 /\
  (current_mode (t_light sys) = NORMAL ->
   ped_crossing (t_light sys) = false ->
   ped_requested (t_light sys) = true ->
   cycle_position (t_light sys) = 4 \/ cycle_position (t_light sys) = 5 ->
   ped_crossing (timer_callback (t_light sys)) = true /\
   ped_cycle_count (timer_callback (t_light sys)) = 0) /\
  (current_mode (t_light sys) = NORMAL ->
   ped_crossing (t_light sys) = true ->
   ped_cycle_count (t_light sys) = 5 ->
   ped_crossing (timer_callback (t_light sys)) = false /\
   ped_cycle_count (timer_callback (t_light sys)) = 0).
Proof.
  intros _ Hzero Hr. split; [|split].
  - apply (reachable_from_invariant
             (fun l => 0 <= ped_cycle_count l <= 5) (boot l0));
      try assumption.
    + cbn. lia.
    + intros l H.
      destruct l as [m cc pcc r red yel grn req crs it ip].
      cbn in H.
      tick_branches; try assumption; try lia.
      match goal with
      | Hlt : (_ <? 5) = true |- _ => apply Z.ltb_lt in Hlt
      end.
      rewrite int_incr_small; lia.
    + intros l H. exact H.
    + intros l H _. exact H.
    + intros l v H _. exact H.
  - intros Hm Hc Hq Hpos.
    rewrite (crossing_start _ Hm Hc Hq Hpos). split; reflexivity.
  - intros Hm Hc Hp.
    rewrite (crossing_complete _ Hm Hc) by lia. split; reflexivity.
Qed.

(** C6 (the code at a value beyond 32 bits).  The ten bytes
    "4294967301" are a decimal integer, 4294967301, that is not between 1
    and 9, yet the write stores 5 in [rate] and returns 10: [sscanf] puts
    the value into the [unsigned int] [new_rate], where it arrives as
    4294967301 - 2^32 = 5, and the range test sees only that. *)
Theorem C6_write_wraps_large_value :
  parse_digits 0 "4294967301" = 4294967301 /\
  ~ (1 <= 4294967301 <= 9) /\
  copy_from_user "4294967301" 10 = Some "4294967301"%string /\
  sscanf_u "4294967301" = Some 5 /\
  rate fresh = 1 /\
  mytraffic_write fresh "4294967301" 10 = (10, set_rate fresh 5) /\
  rate (snd (mytraffic_write fresh "4294967301" 10)) = 5.
Proof.
  split; [reflexivity|]. split; [lia|].
  repeat split; vm_compute; reflexivity.
Qed.

(** X22.  [rate] is between 1 and 9 in every state the module can reach:
    a successful initialisation sets it to 1, and a write, whatever its
    bytes and its count, leaves [rate] as it was or sets it to a value
    between 1 and 9. *)
Theorem X22_rate_between_1_and_9 :
  (forall sys, reachable sys -> 1 <= rate (t_light sys) <= 9) /\
  (forall e l, mytraffic_init e = (0, Some l) -> rate l = 1) /\
  (forall l buf count,
     rate (snd (mytraffic_write l buf count)) = rate l \/
     1 <= rate (snd (mytraffic_write l buf count)) <= 9).
Proof.
  split; [|split].
  - intros sys (e & l & Hinit & Hr).
    apply (reachable_from_invariant (fun l => 1 <= rate l <= 9) (boot l));
      try assumption.
    + destruct (mytraffic_init_success e l Hinit) as (m & _ & ->). cbn. lia.
    + intros l1 H. destruct (timer_callback_frame l1) as (_ & -> & _). exact H.
    + intros l1 H. exact H.
    + intros l1 H _. exact H.
    + intros l1 v _ Hv. exact Hv.
  - intros e l Hinit.
    destruct (mytraffic_init_success e l Hinit) as (m & _ & ->). reflexivity.
  - intros l buf count.
    destruct (mytraffic_write_cases l buf count)
      as [-> | (kbuf & v & _ & _ & _ & Hv & ->)]; [left; reflexivity|].
    right. cbn [snd]. destruct l. exact Hv.
Qed.

(** C10.  A toggle press outside the debounce period sets [current_mode]
    to the next mode in the order NORMAL, FLASHING_RED, FLASHING_YELLOW,
    NORMAL, sets [cycle_count] to 0 and leaves [ped_requested],
    [ped_crossing], [ped_cycle_count], [rate] and the three outputs as
    they were: a crossing under way is not cancelled. *)
Theorem C10_toggle_frame (j last : Z) (l : traffic_light) :
  debounced j last = false ->
  fst (toggle_interrupt_handler j last l) = j /\
  current_mode (snd (toggle_interrupt_handler j last l)) =
    next_mode (current_mode l) /\
  cycle_count (snd (toggle_interrupt_handler j last l)) = 0 /\
  ped_requested (snd (toggle_interrupt_handler j last l)) = ped_requested l /\
  ped_crossing (snd (toggle_interrupt_handler j last l)) = ped_crossing l /\
  ped_cycle_count (snd (toggle_interrupt_handler j last l)) = ped_cycle_count l /\
  rate (snd (toggle_interrupt_handler j last l)) = rate l /\
  lights (snd (toggle_interrupt_handler j last l)) = lights l /\
  irq_toggle (snd (toggle_interrupt_handler j last l)) = irq_toggle l /\
  irq_ped (snd (toggle_interrupt_handler j last l)) = irq_ped l.
Proof.
  intros Hd. rewrite (toggle_interrupt_handler_accepted _ _ _ Hd).
  repeat split.
Qed.

(** * Further properties of the entry points *)

(** ** The timer callback over any number of ticks *)

Lemma int_rem_nonneg (x y : Z) : 0 <= x -> 0 < y -> int_rem x y = x mod y.
Proof. intros Hx Hy. unfold int_rem. apply Z.rem_mod_nonneg; lia. Qed.

(** The test of the flashing modes, for a counter of either sign. *)
Lemma int_rem_2_flash_on (x : Z) : (int_rem x 2 =? 1) = flash_on x.
Proof.
  unfold flash_on. destruct (0 <? x) eqn:Hpos.
  - apply Z.ltb_lt in Hpos. rewrite int_rem_nonneg by lia.
    rewrite Zmod_odd. destruct (Z.odd x); reflexivity.
  - apply Z.ltb_ge in Hpos. cbn [andb].
    apply Z.eqb_neq. unfold int_rem.
    pose proof (Z.rem_nonpos x 2 ltac:(lia) Hpos). lia.
Qed.

(** A NORMAL tick with no crossing under way and nothing requested. *)
Lemma normal_tick (l : traffic_light) :
  current_mode l = NORMAL -> ped_crossing l = false ->
  ped_requested l = false ->
  timer_callback l =
  mk_traffic_light NORMAL (int_incr (cycle_count l)) (ped_cycle_count l)
    (rate l)
    (fst (fst (phase_lights (cycle_position l))))
    (snd (fst (phase_lights (cycle_position l))))
    (snd (phase_lights (cycle_position l)))
    false false (irq_toggle l) (irq_ped l).
Proof.
  destruct l as [m cc pcc r red yel grn req crs it ip].
  cbn. intros -> -> ->.
  unfold cycle_position, phase_lights.
  tick_branches; reflexivity.
Qed.

Lemma normal_ticks (n : nat) :
  forall l,
    current_mode l = NORMAL -> ped_crossing l = false ->
    ped_requested l = false ->
    INT_MIN <= cycle_count l -> cycle_count l + Z.of_nat n <= INT_MAX ->
    current_mode (ticks n l) = NORMAL /\
    ped_crossing (ticks n l) = false /\
    ped_requested (ticks n l) = false /\
    cycle_count (ticks n l) = cycle_count l + Z.of_nat n /\
    ((0 < n)%nat ->
     lights (ticks n l) =
     phase_lights (int_rem (cycle_count l + Z.of_nat n) 6)).
Proof.
  unfold INT_MAX, INT_MIN.
  induction n as [|n IH]; intros l Hm Hc Hq H0 Hmax.
  - cbn [ticks]. rewrite Z.add_0_r. repeat split; try assumption. lia.
  - rewrite ticks_S_last.
    destruct (IH l Hm Hc Hq H0 ltac:(lia)) as (Hm' & Hc' & Hq' & Hcc & _).
    rewrite (normal_tick _ Hm' Hc' Hq').
    unfold cycle_position. rewrite Hcc.
    rewrite int_incr_small by lia.
    replace (cycle_count l + Z.of_nat n + 1)
      with (cycle_count l + Z.of_nat (S n)) by lia.
    cbn [current_mode ped_crossing ped_requested cycle_count lights
           red_active yellow_active green_active].
    repeat split. intros _.
    destruct (phase_lights _) as [[a b] c]. reflexivity.
Qed.

(** The outputs at a position that is not positive. *)
Lemma phase_lights_nonpos (x : Z) :
  x <= 0 -> phase_lights (int_rem x 6) = green_only.
Proof.
  intros Hx. unfold int_rem.
  pose proof (Z.rem_nonpos x 6 ltac:(lia) Hx) as Hr.
  unfold phase_lights.
  replace (Z.rem x 6 =? 3) with false by (symmetry; apply Z.eqb_neq; lia).
  replace (Z.rem x 6 =? 4) with false by (symmetry; apply Z.eqb_neq; lia).
  replace (Z.rem x 6 =? 5) with false by (symmetry; apply Z.eqb_neq; lia).
  reflexivity.
Qed.

(** X1.  In NORMAL mode with no crossing under way and no request
    pending, for a counter anywhere in the range of [int] and as long as it
    does not pass [INT_MAX], the outputs after [n >= 1] ticks are those of
    position [(cycle_count + n) % 6] with the remainder of C: yellow at 3,
    red at 4 and 5, green otherwise, and the counter has advanced by [n].
    When [cycle_count + n] is not negative the position is
    [(cycle_count + n) mod 6] (green at 0, 1, 2) and the outputs are the
    same again six ticks later; when it is not positive the outputs are
    green only. *)
Theorem X1_normal_cycle_any_tick (n : nat) (l : traffic_light) :
  current_mode l = NORMAL -> ped_crossing l = false ->
  ped_requested l = false ->
  INT_MIN <= cycle_count l -> cycle_count l + Z.of_nat n <= INT_MAX ->
  (0 < n)%nat ->
  lights (ticks n l) =
    phase_lights (int_rem (cycle_count l + Z.of_nat n) 6) /\
  cycle_count (ticks n l) = cycle_count l + Z.of_nat n /\
  (0 <= cycle_count l + Z.of_nat n ->
   lights (ticks n l) = phase_lights ((cycle_count l + Z.of_nat n) mod 6)) /\
  (0 <= cycle_count l + Z.of_nat n ->
   cycle_count l + Z.of_nat n + 6 <= INT_MAX ->
   lights (ticks (n + 6) l) = lights (ticks n l)) /\
  (cycle_count l + Z.of_nat n <= 0 -> lights (ticks n l) = green_only).
Proof.
  intros Hm Hc Hq H0 Hmax Hn.
  destruct (normal_ticks n l Hm Hc Hq H0 Hmax) as (_ & _ & _ & Hcc & Hl).
  rewrite (Hl Hn).
  split; [reflexivity|]. split; [exact Hcc|]. split; [|split].
  - intros Hpos. rewrite int_rem_nonneg by lia. reflexivity.
  - intros Hpos Hmax6.
    destruct (normal_ticks (n + 6) l Hm Hc Hq H0 ltac:(lia))
      as (_ & _ & _ & _ & Hl6).
    rewrite (Hl6 ltac:(lia)).
    rewrite !int_rem_nonneg by lia.
    f_equal.
    replace (cycle_count l + Z.of_nat (n + 6))
      with (cycle_count l + Z.of_nat n + 1 * 6) by lia.
    apply Z.mod_add. lia.
  - intros Hneg. apply phase_lights_nonpos. exact Hneg.
Qed.

(** A tick in a flashing mode writes the counter and the outputs only. *)
Lemma flashing_tick (l : traffic_light) :
  current_mode l <> NORMAL ->
  timer_callback l =
  mk_traffic_light (current_mode l) (int_incr (cycle_count l))
    (ped_cycle_count l) (rate l)
    (match current_mode l with
     | FLASHING_RED => int_rem (int_incr (cycle_count l)) 2 =? 1
     | _ => false
     end)
    (match current_mode l with
     | FLASHING_YELLOW => int_rem (int_incr (cycle_count l)) 2 =? 1
     | _ => false
     end)
    false (ped_requested l) (ped_crossing l) (irq_toggle l) (irq_ped l).
Proof.
  destruct l as [m cc pcc r red yel grn req crs it ip].
  cbn -[int_incr int_rem Z.eqb]. intros Hm.
  destruct m; [congruence| |]; reflexivity.
Qed.

(** X2.  In a flashing mode the pedestrian state is frozen: any number of
    ticks leaves [ped_requested], [ped_crossing], [ped_cycle_count], the
    mode and the rate as they were, and green stays off. *)
Theorem X2_flashing_ticks_freeze_pedestrian_state (n : nat) (l : traffic_light) :
  current_mode l <> NORMAL ->
  current_mode (ticks n l) = current_mode l /\
  ped_requested (ticks n l) = ped_requested l /\
  ped_crossing (ticks n l) = ped_crossing l /\
  ped_cycle_count (ticks n l) = ped_cycle_count l /\
  rate (ticks n l) = rate l /\
  ((0 < n)%nat -> green_active (ticks n l) = false).
Proof.
  intros Hm. induction n as [|n IH].
  - cbn [ticks]. repeat split. lia.
  - rewrite ticks_S_last.
    destruct IH as (Hm' & Hq & Hc & Hp & Hr & _).
    rewrite flashing_tick by congruence.
    cbn [current_mode ped_requested ped_crossing ped_cycle_count rate
           green_active].
    repeat split; assumption.
Qed.

Lemma flashing_ticks (n : nat) :
  forall l,
    current_mode l <> NORMAL ->
    INT_MIN <= cycle_count l -> cycle_count l + Z.of_nat n <= INT_MAX ->
    current_mode (ticks n l) = current_mode l /\
    cycle_count (ticks n l) = cycle_count l + Z.of_nat n /\
    ((0 < n)%nat ->
     lights (ticks n l) =
     flash_lights (current_mode l) (cycle_count l + Z.of_nat n)).
Proof.
  unfold INT_MAX, INT_MIN.
  induction n as [|n IH]; intros l Hm H0 Hmax.
  - cbn [ticks]. rewrite Z.add_0_r. repeat split. lia.
  - rewrite ticks_S_last.
    destruct (IH l Hm H0 ltac:(lia)) as (Hm' & Hcc & _).
    rewrite flashing_tick by congruence.
    rewrite Hm', Hcc.
    rewrite int_incr_small by lia.
    rewrite int_rem_2_flash_on.
    replace (cycle_count l + Z.of_nat n + 1)
      with (cycle_count l + Z.of_nat (S n)) by lia.
    cbn [current_mode cycle_count lights red_active yellow_active
           green_active].
    repeat split. intros _.
    destruct (current_mode l); [congruence| |]; reflexivity.
Qed.

(** X3.  In FLASHING_RED, for a counter anywhere in the range of [int]
    and as long as it does not pass [INT_MAX], the red output after
    [n >= 1] ticks is on exactly when [cycle_count + n] is positive and odd
    (the test [cycle_count % 2 == 1] of C), with yellow and green off; in
    FLASHING_YELLOW the same holds for the yellow output.  While
    [cycle_count + n] is not negative the light alternates on every tick,
    and after a toggle (counter 0) the first tick turns it on; while
    [cycle_count + n] is not positive all three outputs are off. *)
Theorem X3_flashing_alternates (n : nat) (l : traffic_light) :
  current_mode l <> NORMAL ->
  INT_MIN <= cycle_count l -> cycle_count l + Z.of_nat n + 1 <= INT_MAX ->
  (0 < n)%nat ->
  lights (ticks n l) =
    flash_lights (current_mode l) (cycle_count l + Z.of_nat n) /\
  (0 <= cycle_count l + Z.of_nat n ->
   lights (ticks (S n) l) <> lights (ticks n l)) /\
  (cycle_count l = 0 ->
   lights (ticks 1 l) =
   match current_mode l with
   | FLASHING_RED => red_only
   | _ => yellow_only
   end) /\
  (cycle_count l + Z.of_nat n <= 0 -> lights (ticks n l) = all_off).
Proof.
  intros Hm H0 Hmax Hn.
  destruct (flashing_ticks n l Hm H0 ltac:(lia)) as (_ & _ & Hl).
  destruct (flashing_ticks (S n) l Hm H0 ltac:(lia)) as (_ & _ & Hl1).
  destruct (flashing_ticks 1 l Hm H0 ltac:(lia)) as (_ & _ & H1).
  rewrite (Hl Hn), (Hl1 ltac:(lia)).
  split; [reflexivity|]. split; [|split].
  - intros Hpos.
    replace (cycle_count l + Z.of_nat (S n))
      with (Z.succ (cycle_count l + Z.of_nat n)) by lia.
    unfold flash_lights, flash_on.
    replace (0 <? Z.succ (cycle_count l + Z.of_nat n)) with true
      by (symmetry; apply Z.ltb_lt; lia).
    rewrite Z.odd_succ, <- Z.negb_odd. cbn [andb].
    destruct (Z.eq_dec (cycle_count l + Z.of_nat n) 0) as [Hz | Hnz].
    + rewrite Hz. destruct (current_mode l); [congruence| |]; discriminate.
    + replace (0 <? cycle_count l + Z.of_nat n) with true
        by (symmetry; apply Z.ltb_lt; lia).
      destruct (current_mode l); [congruence| |];
        destruct (Z.odd _); discriminate.
  - intros Hz. rewrite (H1 ltac:(lia)), Hz.
    destruct (current_mode l); [congruence| |]; reflexivity.
  - intros Hneg. unfold flash_lights, flash_on.
    replace (0 <? cycle_count l + Z.of_nat n) with false
      by (symmetry; apply Z.ltb_ge; lia).
    destruct (current_mode l); [congruence| |]; reflexivity.
Qed.

(** ** Waiting for the stop phase *)

(** A NORMAL tick with a request pending at a position other than 4 and
    5: the request stays pending and no crossing starts. *)
Lemma waiting_tick (l : traffic_light) :
  current_mode l = NORMAL -> ped_crossing l = false ->
  ped_requested l = true ->
  cycle_position l <> 4 -> cycle_position l <> 5 ->
  timer_callback l =
  mk_traffic_light NORMAL (int_incr (cycle_count l)) (ped_cycle_count l)
    (rate l)
    (fst (fst (phase_lights (cycle_position l))))
    (snd (fst (phase_lights (cycle_position l))))
    (snd (phase_lights (cycle_position l)))
    true false (irq_toggle l) (irq_ped l).
Proof.
  destruct l as [m cc pcc r red yel grn req crs it ip].
  unfold cycle_position, phase_lights.
  cbn -[int_incr int_rem Z.eqb]. intros -> -> -> H4 H5.
  apply Z.eqb_neq in H4. apply Z.eqb_neq in H5.
  unfold timer_callback. cbn -[int_incr int_rem Z.eqb].
  rewrite H4, H5.
  destruct (int_rem (int_incr cc) 6 =? 3); reflexivity.
Qed.

Lemma waiting_ticks (i : nat) :
  forall l,
    current_mode l = NORMAL -> ped_crossing l = false ->
    ped_requested l = true ->
    0 <= cycle_count l -> cycle_count l + Z.of_nat i <= INT_MAX ->
    (forall j, (1 <= j <= i)%nat ->
       (cycle_count l + Z.of_nat j) mod 6 <> 4 /\
       (cycle_count l + Z.of_nat j) mod 6 <> 5) ->
    current_mode (ticks i l) = NORMAL /\
    ped_crossing (ticks i l) = false /\
    ped_requested (ticks i l) = true /\
    cycle_count (ticks i l) = cycle_count l + Z.of_nat i.
Proof.
  unfold INT_MAX.
  induction i as [|i IH]; intros l Hm Hc Hq H0 Hmax Hpos.
  - cbn [ticks]. rewrite Z.add_0_r. repeat split; assumption.
  - rewrite ticks_S_last.
    destruct (IH l Hm Hc Hq H0 ltac:(lia)) as (Hm' & Hc' & Hq' & Hcc).
    { intros j Hj. apply Hpos. lia. }
    assert (Hp : cycle_position (ticks i l) =
                 (cycle_count l + Z.of_nat (S i)) mod 6).
    { unfold cycle_position. rewrite Hcc.
      rewrite int_incr_small by lia. rewrite int_rem_nonneg by lia.
      f_equal. lia. }
    destruct (Hpos (S i) ltac:(lia)) as [H4 H5].
    rewrite (waiting_tick _ Hm' Hc' Hq') by (rewrite Hp; assumption).
    cbn [current_mode ped_crossing ped_requested cycle_count].
    rewrite Hcc, int_incr_small by lia.
    repeat split. lia.
Qed.

(** X4.  A request pending in NORMAL mode is served within five ticks:
    with no crossing under way and the counter away from [INT_MAX], some
    tick [k] between the first and the fifth starts the crossing (red and
    yellow on, request cleared), and no crossing is under way before it. *)
Theorem X4_request_served_within_five_ticks (l : traffic_light) :
  current_mode l = NORMAL -> ped_crossing l = false ->
  ped_requested l = true ->
  0 <= cycle_count l -> cycle_count l + 5 <= INT_MAX ->
  exists k : nat,
    (1 <= k <= 5)%nat /\
    ped_crossing (ticks k l) = true /\
    ped_requested (ticks k l) = false /\
    ped_cycle_count (ticks k l) = 0 /\
    lights (ticks k l) = red_yellow /\
    (forall i, (i < k)%nat ->
       ped_crossing (ticks i l) = false /\ ped_requested (ticks i l) = true).
Proof.
  clear BITS_PER_LONG msecs_to_jiffies.
  intros Hm Hc Hq H0 Hmax. unfold INT_MAX in Hmax.
  assert (Hd : exists d : nat,
             (d <= 4)%nat /\
             (forall j, (1 <= j <= d)%nat ->
                (cycle_count l + Z.of_nat j) mod 6 <> 4 /\
                (cycle_count l + Z.of_nat j) mod 6 <> 5) /\
             ((cycle_count l + Z.of_nat (S d)) mod 6 = 4 \/
              (cycle_count l + Z.of_nat (S d)) mod 6 = 5)).
  { pose proof (Z.mod_pos_bound (cycle_count l) 6 ltac:(lia)) as Hr.
    assert (Hcase : cycle_count l mod 6 = 0 \/ cycle_count l mod 6 = 1 \/
                    cycle_count l mod 6 = 2 \/ cycle_count l mod 6 = 3 \/
                    cycle_count l mod 6 = 4 \/ cycle_count l mod 6 = 5) by lia.
    destruct Hcase as [H | [H | [H | [H | [H | H]]]]];
      [exists 3%nat | exists 2%nat | exists 1%nat | exists 0%nat
       | exists 0%nat | exists 4%nat];
      (split; [lia|]); (split; [intros j Hj|]);
      Z.div_mod_to_equations; lia. }
  destruct Hd as (d & Hd4 & Hbefore & Hstop).
  assert (Hwait : forall i, (i <= d)%nat ->
            current_mode (ticks i l) = NORMAL /\
            ped_crossing (ticks i l) = false /\
            ped_requested (ticks i l) = true /\
            cycle_count (ticks i l) = cycle_count l + Z.of_nat i).
  { intros i Hi.
    apply (waiting_ticks i l Hm Hc Hq H0); [unfold INT_MAX; lia|].
    intros j Hj. apply Hbefore. lia. }
  destruct (Hwait d (le_n _)) as (Hm' & Hc' & Hq' & Hcc).
  assert (Hp : cycle_position (ticks d l) =
               (cycle_count l + Z.of_nat (S d)) mod 6).
  { unfold cycle_position. rewrite Hcc.
    rewrite int_incr_small by lia. rewrite int_rem_nonneg by lia.
    f_equal. lia. }
  exists (S d). split; [lia|].
  rewrite ticks_S_last.
  rewrite (crossing_start _ Hm' Hc' Hq') by (rewrite Hp; exact Hstop).
  do 4 (split; [reflexivity|]).
  intros i Hi. destruct (Hwait i ltac:(lia)) as (_ & Hci & Hqi & _).
  split; assumption.
Qed.

(** ** The counter at [INT_MAX] *)

(** A NORMAL tick outside a crossing whose incremented counter is not
    positive commands green, whether or not a request is pending: the C
    remainder of such a counter is never 3, 4 or 5. *)
Lemma nonpositive_tick (l : traffic_light) :
  current_mode l = NORMAL -> ped_crossing l = false ->
  int_incr (cycle_count l) <= 0 ->
  timer_callback l =
  mk_traffic_light NORMAL (int_incr (cycle_count l)) (ped_cycle_count l)
    (rate l) false false true (ped_requested l) false
    (irq_toggle l) (irq_ped l).
Proof.
  destruct l as [m cc pcc r red yel grn req crs it ip].
  cbn -[int_incr]. intros -> -> Hneg.
  assert (Hrem : int_rem (int_incr cc) 6 <= 0).
  { unfold int_rem. apply Z.rem_nonpos; lia. }
  unfold timer_callback. cbn -[int_incr int_rem Z.eqb].
  replace (int_rem (int_incr cc) 6 =? 3) with false
    by (symmetry; apply Z.eqb_neq; lia).
  replace (int_rem (int_incr cc) 6 =? 4) with false
    by (symmetry; apply Z.eqb_neq; lia).
  replace (int_rem (int_incr cc) 6 =? 5) with false
    by (symmetry; apply Z.eqb_neq; lia).
  reflexivity.
Qed.

Lemma int_incr_INT_MAX : int_incr INT_MAX = - 2 ^ 31.
Proof. reflexivity. Qed.

(** X5.  When the counter of a NORMAL state outside a crossing stands at
    [INT_MAX], the next tick wraps it to [INT_MIN], and for the next
    [2^31] ticks the outputs are green only and no crossing starts, even
    with a request pending: the request stays as it was. *)
Theorem X5_green_after_counter_wraps (n : nat) (l : traffic_light) :
  current_mode l = NORMAL -> ped_crossing l = false ->
  cycle_count l = INT_MAX ->
  (1 <= n)%nat -> Z.of_nat n <= 2 ^ 31 ->
  lights (ticks n l) = green_only /\
  cycle_count (ticks n l) = Z.of_nat n - 1 - 2 ^ 31 /\
  ped_crossing (ticks n l) = false /\
  ped_requested (ticks n l) = ped_requested l.
Proof.
  intros Hm Hc Hcc Hn1.
  assert (Hgen : Z.of_nat n <= 2 ^ 31 ->
            current_mode (ticks n l) = NORMAL /\
            lights (ticks n l) = green_only /\
            cycle_count (ticks n l) = Z.of_nat n - 1 - 2 ^ 31 /\
            ped_crossing (ticks n l) = false /\
            ped_requested (ticks n l) = ped_requested l).
  { induction n as [|n IH]; [lia|].
    intros Hmax. rewrite ticks_S_last.
    destruct n as [|n].
    - cbn [ticks].
      rewrite (nonpositive_tick l Hm Hc)
        by (rewrite Hcc, int_incr_INT_MAX; lia).
      rewrite Hcc, int_incr_INT_MAX. repeat split.
    - destruct (IH ltac:(lia) ltac:(lia)) as (Hm' & _ & Hcc' & Hc' & Hq').
      assert (Hi : int_incr (cycle_count (ticks (S n) l)) =
                   Z.of_nat (S (S n)) - 1 - 2 ^ 31).
      { rewrite Hcc'. rewrite int_incr_small by lia. lia. }
      rewrite (nonpositive_tick _ Hm' Hc') by (rewrite Hi; lia).
      rewrite Hi, Hq'. repeat split. }
  intros Hmax. destruct (Hgen Hmax) as (_ & H1 & H2 & H3 & H4).
  repeat split; assumption.
Qed.

(** ** Reading the report piece by piece *)

Lemma substring_length (s : string) :
  forall n m, (n + m <= String.length s)%nat ->
              String.length (substring n m s) = m.
Proof.
  induction s as [|c s IH]; intros n m H; cbn in H.
  - assert (n = 0%nat) by lia. assert (m = 0%nat) by lia. subst. reflexivity.
  - destruct n as [|n]; destruct m as [|m]; cbn.
    + reflexivity.
    + f_equal. apply (IH 0%nat m). lia.
    + apply (IH n 0%nat). lia.
    + apply (IH n (S m)). lia.
Qed.

Lemma substring_split (s : string) :
  forall n a b,
    substring n (a + b) s = (substring n a s ++ substring (n + a) b s)%string.
Proof.
  induction s as [|c s IH]; intros n a b.
  - destruct n, a, b; reflexivity.
  - destruct n as [|n].
    + destruct a as [|a].
      * reflexivity.
      * cbn. f_equal. apply (IH 0%nat a b).
    + cbn. apply IH.
Qed.

Lemma substring_whole (s : string) :
  substring 0 (String.length s) s = s.
Proof. induction s as [|c s IH]; cbn; [reflexivity|]. f_equal. exact IH. Qed.

Lemma append_empty_r (s : string) : (s ++ "")%string = s.
Proof. induction s as [|c s IH]; cbn; [reflexivity|]. f_equal. exact IH. Qed.

(** With a rate between 1 and 9 no [snprintf] cuts anything off: the
    buffer holds the four lines in full and [len] is their length. *)
Lemma status_report_full (l : traffic_light) :
  1 <= rate l <= 9 ->
  status_report l = (full_report l, strlen (full_report l)).
Proof.
  destruct l as [m cc pcc r red yel grn req crs it ip]. cbn [rate].
  intros Hr.
  assert (Hcase : r = 1 \/ r = 2 \/ r = 3 \/ r = 4 \/ r = 5 \/ r = 6 \/
                  r = 7 \/ r = 8 \/ r = 9) by lia.
  destruct Hcase as [-> | [-> | [-> | [-> | [-> | [-> | [-> | [-> | ->]]]]]]]];
    destruct m, red, yel, grn, req, crs; vm_compute; reflexivity.
Qed.

Lemma full_report_length (l : traffic_light) :
  1 <= rate l <= 9 -> 86 <= strlen (full_report l) <= 102.
Proof.
  destruct l as [m cc pcc r red yel grn req crs it ip]. cbn [rate].
  intros Hr.
  assert (Hcase : r = 1 \/ r = 2 \/ r = 3 \/ r = 4 \/ r = 5 \/ r = 6 \/
                  r = 7 \/ r = 8 \/ r = 9) by lia.
  destruct Hcase as [-> | [-> | [-> | [-> | [-> | [-> | [-> | [-> | ->]]]]]]]];
    destruct m, red, yel, grn, req, crs; vm_compute;
    split; intros H; discriminate H.
Qed.

(** X6.  In every state the module can reach, the report fits the
    256-byte buffer with room to spare: [status_report] holds exactly the
    four lines for the mode, the rate, the three lights and the pedestrian
    flag, its [len] is the length of that text, and the text is between 86
    and 102 bytes long. *)
Theorem X6_report_is_never_truncated (sys : system) :
  reachable sys ->
  status_report (t_light sys) =
    (full_report (t_light sys), strlen (full_report (t_light sys))) /\
  86 <= strlen (full_report (t_light sys)) <= 102.
Proof.
  intros Hr.
  assert (Hrate : 1 <= rate (t_light sys) <= 9).
  { destruct Hr as (e & l & Hinit & Hr).
    apply (reachable_from_invariant (fun l => 1 <= rate l <= 9) (boot l));
      try assumption.
    - destruct (mytraffic_init_success e l Hinit) as (m & _ & ->). cbn. lia.
    - intros l1 H. destruct (timer_callback_frame l1) as (_ & -> & _). exact H.
    - intros l1 H. exact H.
    - intros l1 H _. exact H.
    - intros l1 v _ Hv. exact Hv. }
  split; [apply status_report_full|apply full_report_length]; exact Hrate.
Qed.

(** X7.  A read at an offset at or past the end of the report returns 0,
    hands over nothing and leaves the offset.  A read inside the report
    returns the smaller of [count] and the bytes left, hands over exactly
    that many bytes of the report starting at the offset, and advances the
    offset by them; when the caller's buffer cannot take them it returns
    -EFAULT and leaves the offset. *)
Theorem X7_read_at_offset (l : traffic_light) (writable count f_pos : Z) :
  1 <= rate l <= 9 -> 0 <= f_pos -> 0 <= count ->
  let len := strlen (full_report l) in
  let n := Z.min count (len - f_pos) in
  let r := mytraffic_read l writable count f_pos in
  (len <= f_pos ->
   read_ret r = 0 /\ read_data r = EmptyString /\ read_f_pos r = f_pos) /\
  (f_pos < len -> n <= writable ->
   read_ret r = n /\
   read_data r = substring (Z.to_nat f_pos) (Z.to_nat n) (full_report l) /\
   strlen (read_data r) = n /\
   read_f_pos r = f_pos + n) /\
  (f_pos < len -> writable < n ->
   read_ret r = - EFAULT /\ read_data r = EmptyString /\
   read_f_pos r = f_pos).
Proof.
  intros Hrate Hf Hc. cbv zeta.
  unfold mytraffic_read. rewrite (status_report_full l Hrate).
  set (len := strlen (full_report l)).
  assert (Hmin : (if len - f_pos <? count then len - f_pos else count) =
                 Z.min count (len - f_pos)).
  { destruct (len - f_pos <? count) eqn:H;
      [apply Z.ltb_lt in H|apply Z.ltb_ge in H]; lia. }
  rewrite Hmin. split; [|split].
  - intros H. apply Z.leb_le in H. rewrite H. repeat split.
  - intros H Hw. apply Z.leb_gt in H. rewrite H.
    apply Z.ltb_ge in Hw. rewrite Hw. cbn [read_ret read_data read_f_pos].
    repeat split.
    apply Z.leb_gt in H. unfold strlen.
    rewrite substring_length; [lia|].
    unfold len, strlen in *. lia.
  - intros H Hw. apply Z.leb_gt in H. rewrite H.
    apply Z.ltb_lt in Hw. rewrite Hw. repeat split.
Qed.

(** X8.  Reading in pieces gives what one read gives: the bytes of a read
    of [c1] followed by a read of [c2] at the offset the first one left
    are together the bytes of a single read of [c1 + c2], and the offset
    ends in the same place. *)
Theorem X8_reads_compose (l : traffic_light) (writable c1 c2 f_pos : Z) :
  0 <= f_pos -> 0 <= c1 -> 0 <= c2 -> c1 + c2 <= writable ->
  let r1 := mytraffic_read l writable c1 f_pos in
  let r2 := mytraffic_read l writable c2 (read_f_pos r1) in
  let r := mytraffic_read l writable (c1 + c2) f_pos in
  (read_data r1 ++ read_data r2)%string = read_data r /\
  read_ret r1 + read_ret r2 = read_ret r /\
  read_f_pos r2 = read_f_pos r.
Proof.
  intros Hf H1 H2 Hw. cbv zeta.
  unfold mytraffic_read.
  destruct (status_report l) as [kbuf len].
  destruct (len <=? f_pos) eqn:Hend.
  { cbn [read_f_pos read_data read_ret]. rewrite Hend.
    repeat split. }
  apply Z.leb_gt in Hend.
  assert (Hmin : forall c, (if len - f_pos <? c then len - f_pos else c) =
                           Z.min c (len - f_pos)).
  { intros c. destruct (len - f_pos <? c) eqn:H;
      [apply Z.ltb_lt in H|apply Z.ltb_ge in H]; lia. }
  rewrite !Hmin.
  replace (writable <? Z.min c1 (len - f_pos)) with false
    by (symmetry; apply Z.ltb_ge; lia).
  replace (writable <? Z.min (c1 + c2) (len - f_pos)) with false
    by (symmetry; apply Z.ltb_ge; lia).
  cbn [read_f_pos read_data read_ret].
  destruct (len <=? f_pos + Z.min c1 (len - f_pos)) eqn:Hend2.
  - apply Z.leb_le in Hend2.
    cbn [read_f_pos read_data read_ret].
    replace (Z.min (c1 + c2) (len - f_pos)) with (Z.min c1 (len - f_pos))
      by lia.
    rewrite append_empty_r. repeat split. lia.
  - apply Z.leb_gt in Hend2.
    assert (Hmin2 : (if len - (f_pos + Z.min c1 (len - f_pos)) <? c2
                     then len - (f_pos + Z.min c1 (len - f_pos)) else c2) =
                    Z.min c2 (len - f_pos - c1)).
    { destruct (_ <? c2) eqn:H;
        [apply Z.ltb_lt in H|apply Z.ltb_ge in H]; lia. }
    rewrite Hmin2.
    replace (writable <? Z.min c2 (len - f_pos - c1)) with false
      by (symmetry; apply Z.ltb_ge; lia).
    cbn [read_f_pos read_data read_ret].
    replace (Z.min c1 (len - f_pos)) with c1 by lia.
    replace (Z.min (c1 + c2) (len - f_pos))
      with (c1 + Z.min c2 (len - f_pos - c1)) by lia.
    rewrite (Z2Nat.inj_add c1 (Z.min c2 (len - f_pos - c1))) by lia.
    rewrite (Z2Nat.inj_add f_pos c1) by lia.
    rewrite substring_split.
    repeat split. lia.
Qed.

(** ** Writing a rate *)

Lemma copy_from_user_whole (buf : string) :
  copy_from_user buf (strlen buf) = Some buf.
Proof.
  unfold copy_from_user, strlen.
  rewrite Z.ltb_irrefl, Nat2Z.id, substring_whole. reflexivity.
Qed.

(** A digit is neither white space nor the NUL byte. *)
Lemma isdigit_not_space (c : ascii) :
  isdigit c = true ->
  isspace c = false /\ Ascii.eqb c "000"%char = false /\
  0 <= digit_value c <= 9.
Proof.
  unfold isdigit, isspace, digit_value. intros H.
  apply andb_true_iff in H. destruct H as [Hlo Hhi].
  apply Z.leb_le in Hlo. apply Z.leb_le in Hhi.
  split; [|split; [|lia]].
  - repeat (apply orb_false_iff; split);
      [apply andb_false_iff; right; apply Z.leb_gt; lia
      | apply Z.eqb_neq; lia | apply Z.eqb_neq; lia].
  - apply Ascii.eqb_neq. intros ->. cbn in Hlo. lia.
Qed.

(** What [sscanf] makes of a text that starts with one digit followed by
    something that is not a digit. *)
Lemma sscanf_u_one_digit (d : ascii) (rest : string) :
  isdigit d = true ->
  match rest with
  | EmptyString => True
  | String c _ => isdigit c = false
  end ->
  sscanf_u (String d rest) = Some (digit_value d).
Proof.
  intros Hd Hrest.
  destruct (isdigit_not_space d Hd) as (Hsp & Hnul & Hval).
  unfold sscanf_u. cbn [c_str]. rewrite Hnul.
  cbn [skip_spaces]. rewrite Hsp, Hd.
  cbn [parse_digits]. rewrite Hd.
  fold (digit_value d).
  assert (Hstop : forall acc, parse_digits acc (c_str rest) = acc).
  { intros acc. destruct rest as [|c rest']; [reflexivity|].
    cbn [c_str]. destruct (Ascii.eqb c "000"%char); [reflexivity|].
    cbn [parse_digits]. rewrite Hrest. reflexivity. }
  rewrite Hstop. unfold wrap_uint.
  rewrite Z.mod_small by lia. f_equal; lia.
Qed.

(** A text whose first byte is neither white space nor a digit does not
    parse. *)
Lemma sscanf_u_no_digit (c : ascii) (rest : string) :
  isdigit c = false -> isspace c = false ->
  sscanf_u (String c rest) = None.
Proof.
  intros Hd Hsp. unfold sscanf_u. cbn [c_str].
  destruct (Ascii.eqb c "000"%char); [reflexivity|].
  cbn [skip_spaces]. rewrite Hsp, Hd. reflexivity.
Qed.

(** The digits 1 to 9 as [%u] prints them. *)
Lemma fmt_u_digit (d : ascii) :
  isdigit d = true -> 1 <= digit_value d ->
  fmt_u (digit_value d) = String d EmptyString.
Proof.
  intros Hd H1.
  destruct (isdigit_not_space d Hd) as (_ & _ & Hval).
  assert (Hd' : d = ascii_of_nat (Z.to_nat (digit_value d + 48))).
  { unfold digit_value.
    replace (Z.of_nat (nat_of_ascii d) - 48 + 48)
      with (Z.of_nat (nat_of_ascii d)) by lia.
    rewrite Nat2Z.id, ascii_nat_embedding. reflexivity. }
  rewrite Hd' at 2.
  assert (Hcase : digit_value d = 1 \/ digit_value d = 2 \/
                  digit_value d = 3 \/ digit_value d = 4 \/
                  digit_value d = 5 \/ digit_value d = 6 \/
                  digit_value d = 7 \/ digit_value d = 8 \/
                  digit_value d = 9) by lia.
  destruct Hcase as [H | [H | [H | [H | [H | [H | [H | [H | H]]]]]]]];
    rewrite H; reflexivity.
Qed.

(** X9.  Writing one digit from 1 to 9, followed by anything that does
    not start with a digit (a line feed, nothing at all) and fewer than 16
    bytes in all, stores the digit's value in [rate] and returns the number
    of bytes written; the report read afterwards shows that same digit in
    its "Cycle Rate" line and is otherwise what it was. *)
Theorem X9_written_rate_is_reported (l : traffic_light) (d : ascii)
    (rest : string) :
  isdigit d = true -> 1 <= digit_value d ->
  match rest with
  | EmptyString => True
  | String c _ => isdigit c = false
  end ->
  strlen (String d rest) < 16 ->
  let count := strlen (String d rest) in
  let l' := snd (mytraffic_write l (String d rest) count) in
  mytraffic_write l (String d rest) count = (count, set_rate l (digit_value d)) /\
  fst (status_report l') =
  ("Mode: " ++
   match current_mode l with
   | NORMAL => "normal"
   | FLASHING_RED => "flashing-red"
   | FLASHING_YELLOW => "flashing-yellow"
   end ++ LF ++
   "Cycle Rate: " ++ String d EmptyString ++ " Hz" ++ LF ++
   "Lights: red " ++ (if red_active l then "on" else "off") ++
   ", yellow " ++ (if yellow_active l then "on" else "off") ++
   ", green " ++ (if green_active l then "on" else "off") ++ LF ++
   "Pedestrian: " ++
   (if ped_requested l || ped_crossing l then "present" else "not present") ++
   LF)%string.
Proof.
  intros Hd H1 Hrest Hlen. cbv zeta.
  destruct (isdigit_not_space d Hd) as (_ & _ & Hval).
  assert (Hw : mytraffic_write l (String d rest) (strlen (String d rest)) =
               (strlen (String d rest), set_rate l (digit_value d))).
  { unfold mytraffic_write.
    apply Z.leb_gt in Hlen. rewrite Hlen.
    rewrite copy_from_user_whole, (sscanf_u_one_digit d rest Hd Hrest).
    replace ((1 <=? digit_value d) && (digit_value d <=? 9)) with true;
      [reflexivity|].
    symmetry. apply andb_true_iff. split; apply Z.leb_le; lia. }
  rewrite Hw. split; [reflexivity|].
  cbn [snd].
  rewrite status_report_full by (cbn [rate set_rate]; lia).
  cbn [fst]. unfold full_report.
  cbn [rate set_rate current_mode red_active yellow_active green_active
         ped_requested ped_crossing].
  rewrite (fmt_u_digit d Hd H1). reflexivity.
Qed.

(** X10.  A write of no bytes returns 0 and changes nothing, whatever the
    caller's buffer holds.  A write of fewer than 16 bytes whose first byte
    is neither white space nor a digit (a letter, a sign, a NUL) returns
    its byte count and changes nothing. *)
Theorem X10_unparsable_write_changes_nothing (l : traffic_light)
    (buf : string) :
  mytraffic_write l buf 0 = (0, l) /\
  (forall c rest,
     buf = String c rest ->
     isdigit c = false -> isspace c = false -> strlen buf < 16 ->
     mytraffic_write l buf (strlen buf) = (strlen buf, l)).
Proof.
  split.
  - unfold mytraffic_write, copy_from_user, strlen.
    change (16 <=? 0) with false. cbv iota.
    replace (Z.of_nat (String.length buf) <? 0) with false
      by (symmetry; apply Z.ltb_ge; lia).
    change (Z.to_nat 0) with 0%nat.
    replace (substring 0 0 buf) with EmptyString
      by (destruct buf; reflexivity).
    reflexivity.
  - intros c rest -> Hd Hsp Hlen.
    unfold mytraffic_write.
    apply Z.leb_gt in Hlen. rewrite Hlen.
    rewrite copy_from_user_whole, (sscanf_u_no_digit c rest Hd Hsp).
    reflexivity.
Qed.

(** X11.  Whatever is written, only [rate] can change: every other field
    of the state is as before, and a write that returns an error (a
    negative value) changes nothing at all.  The return value is [count],
    -EINVAL or -EFAULT. *)
Theorem X11_write_touches_rate_only (l : traffic_light) (buf : string)
    (count : Z) :
  0 <= count ->
  let ret := fst (mytraffic_write l buf count) in
  let l' := snd (mytraffic_write l buf count) in
  l' = set_rate l (rate l') /\
  (ret = count \/ ret = - EINVAL \/ ret = - EFAULT) /\
  (ret < 0 -> l' = l).
Proof.
  intros Hc. cbv zeta. unfold mytraffic_write.
  destruct (16 <=? count);
    [|destruct (copy_from_user buf count) as [kbuf|];
      [destruct (sscanf_u kbuf) as [v|];
       [destruct ((1 <=? v) && (v <=? 9))|]|]];
    cbn [fst snd]; destruct l; cbn [rate set_rate];
    (split; [reflexivity|split; [auto|intros Hneg; try reflexivity; lia]]).
Qed.

(** ** Debouncing and the two buttons *)

(** X12.  After an accepted toggle press at [j1], a second press at [j2]
    inside the debounce period is dropped: the mode has moved one step in
    all, and the time stamp stays at [j1].  A second press outside the
    period is accepted: the mode has moved two steps, and the time stamp is
    [j2]. *)
Theorem X12_toggle_debounce (j1 j2 last : Z) (l : traffic_light) :
  debounced j1 last = false ->
  let first := toggle_interrupt_handler j1 last l in
  let second := toggle_interrupt_handler j2 (fst first) (snd first) in
  (debounced j2 j1 = true ->
   fst second = j1 /\ snd second = snd first /\
   current_mode (snd second) = next_mode (current_mode l)) /\
  (debounced j2 j1 = false ->
   fst second = j2 /\
   current_mode (snd second) = next_mode (next_mode (current_mode l)) /\
   cycle_count (snd second) = 0).
Proof.
  intros H1. cbv zeta.
  rewrite (toggle_interrupt_handler_accepted _ _ _ H1). cbn [fst snd].
  split; intros H2.
  - rewrite (toggle_interrupt_handler_ignored _ _ _ H2). repeat split.
  - rewrite (toggle_interrupt_handler_accepted _ _ _ H2). repeat split.
Qed.


(** X14.  Three accepted toggle presses bring the mode back to where it
    was: the light state is the one before the presses with [cycle_count]
    set to 0, so lights, rate and pedestrian state are untouched. *)
Theorem X14_three_toggles_restore_mode (j1 j2 j3 : Z) (sys : system) :
  debounced j1 (toggle_most_recent sys) = false ->
  debounced j2 j1 = false -> debounced j3 j2 = false ->
  run sys [TogglePress j1; TogglePress j2; TogglePress j3] =
  mk_system (set_cycle_count (t_light sys) 0) j3 (ped_most_recent sys).
Proof.
  intros H1 H2 H3. unfold run. cbn [fold_left]. unfold step at 3.
  rewrite (toggle_interrupt_handler_accepted _ _ _ H1).
  unfold step at 2. cbn [t_light toggle_most_recent ped_most_recent].
  rewrite (toggle_interrupt_handler_accepted _ _ _ H2).
  unfold step. cbn [t_light toggle_most_recent ped_most_recent].
  rewrite (toggle_interrupt_handler_accepted _ _ _ H3).
  destruct sys as [[m cc pcc r red yel grn req crs it ip] tm pm].
  destruct m; reflexivity.
Qed.

(** One pedestrian press: the light state stays or gets [ped_requested]
    set, the latter only in NORMAL mode. *)
Lemma ped_press_step (sys : system) (j : Z) :
  toggle_most_recent (step sys (PedPress j)) = toggle_most_recent sys /\
  (t_light (step sys (PedPress j)) = t_light sys \/
   current_mode (t_light sys) = NORMAL /\
   t_light (step sys (PedPress j)) = set_ped_requested (t_light sys) true).
Proof.
  unfold step.
  destruct (debounced j (ped_most_recent sys)) eqn:Hd.
  - rewrite (ped_interrupt_handler_ignored _ _ _ Hd). cbn. auto.
  - rewrite (ped_interrupt_handler_accepted _ _ _ Hd). cbn.
    destruct (current_mode (t_light sys)); auto.
Qed.

(** X15.  However often and whenever the pedestrian button is pressed in
    a row, the light state afterwards is the one before with at most
    [ped_requested] set: the presses add up to one request.  In the
    flashing modes, and when a request is already pending, they change
    nothing in the light state; the toggle button's debounce stamp is never
    touched. *)
Theorem X15_pedestrian_presses_add_up_to_one (js : list Z) (sys : system) :
  let sys' := run sys (map PedPress js) in
  (t_light sys' = t_light sys \/
   current_mode (t_light sys) = NORMAL /\
   t_light sys' = set_ped_requested (t_light sys) true) /\
  (current_mode (t_light sys) <> NORMAL -> t_light sys' = t_light sys) /\
  (ped_requested (t_light sys) = true -> t_light sys' = t_light sys) /\
  toggle_most_recent sys' = toggle_most_recent sys.
Proof.
  cbv zeta.
  assert (Hmain : forall s,
            (t_light (run s (map PedPress js)) = t_light s \/
             current_mode (t_light s) = NORMAL /\
             t_light (run s (map PedPress js)) =
               set_ped_requested (t_light s) true) /\
            toggle_most_recent (run s (map PedPress js)) =
              toggle_most_recent s).
  { induction js as [|j js IH]; intros s.
    - cbn. auto.
    - cbn [map]. unfold run in *. cbn [fold_left].
      destruct (IH (step s (PedPress j))) as (Hl & Ht).
      destruct (ped_press_step s j) as (Ht1 & Hl1).
      split; [|congruence].
      destruct Hl1 as [Hsame | (Hm & Hset)].
      + rewrite Hsame in Hl. exact Hl.
      + right. split; [exact Hm|].
        destruct Hl as [-> | (_ & ->)]; rewrite Hset;
          destruct (t_light s); reflexivity. }
  destruct (Hmain sys) as (Hl & Ht).
  split; [exact Hl|]. split; [|split; [|exact Ht]].
  - intros Hm. destruct Hl as [H | (H & _)]; [exact H|congruence].
  - intros Hq. destruct Hl as [H | (_ & ->)]; [exact H|].
    destruct (t_light sys) as [m cc pcc r red yel grn req crs it ip].
    cbn in Hq. subst req. reflexivity.
Qed.

(** ** What the stale counter cannot do *)

(** X16.  When the state a successful initialisation leaves has
    [ped_cycle_count] 0, the count is non-zero only while a crossing is
    under way: every state that follows with [ped_crossing] false has
    [ped_cycle_count] 0. *)
Theorem X16_count_is_zero_outside_crossing (e : init_env)
    (l0 : traffic_light) (sys : system) :
  mytraffic_init e = (0, Some l0) -> ped_cycle_count l0 = 0 ->
  reachable_from (boot l0) sys ->
  ped_crossing (t_light sys) = false -> ped_cycle_count (t_light sys) = 0.
Proof.
  intros _ Hzero Hr.
  apply (reachable_from_invariant
           (fun l => ped_crossing l = false -> ped_cycle_count l = 0)
           (boot l0)); try assumption.
  - intros _. exact Hzero.
  - intros l H.
    destruct l as [m cc pcc r red yel grn req crs it ip].
    cbn in H. tick_branches; subst; auto; discriminate.
  - intros l H. exact H.
  - intros l H _. exact H.
  - intros l v H _. exact H.
Qed.

Lemma same_but_idle_count_tick (a b : traffic_light) :
  same_but_idle_count a b ->
  same_but_idle_count (timer_callback a) (timer_callback b).
Proof.
  destruct a as [m cc pcc r red yel grn req crs it ip].
  destruct b as [m' cc' pcc' r' red' yel' grn' req' crs' it' ip'].
  unfold same_but_idle_count, lights. cbn.
  intros (-> & -> & -> & Hl & -> & -> & -> & -> & Hp).
  inversion Hl; subst.
  unfold timer_callback. cbn -[int_incr int_rem Z.ltb Z.eqb].
  destruct m'.
  - destruct crs'.
    + rewrite (Hp eq_refl).
      destruct (pcc' <? 5); cbn; repeat split; auto.
    + destruct (int_rem (int_incr cc') 6 =? 3); [cbn; repeat split; auto|].
      destruct ((int_rem (int_incr cc') 6 =? 4) ||
                (int_rem (int_incr cc') 6 =? 5));
        [destruct req'|]; cbn; repeat split; auto.
  - cbn. repeat split; auto.
  - cbn. repeat split; auto.
Qed.

Lemma same_but_idle_count_step (a b : system) (ev : event) :
  same_but_idle_count (t_light a) (t_light b) ->
  toggle_most_recent a = toggle_most_recent b ->
  ped_most_recent a = ped_most_recent b ->
  same_but_idle_count (t_light (step a ev)) (t_light (step b ev)) /\
  toggle_most_recent (step a ev) = toggle_most_recent (step b ev) /\
  ped_most_recent (step a ev) = ped_most_recent (step b ev).
Proof.
  destruct a as [la ta pa]. destruct b as [lb tb pb].
  cbn [t_light toggle_most_recent ped_most_recent].
  intros Hs -> ->.
  destruct ev as [|j|j|buf count|writable count f_pos]; unfold step;
    cbn [t_light toggle_most_recent ped_most_recent].
  - split; [apply same_but_idle_count_tick; exact Hs|split; reflexivity].
  - destruct (debounced j tb) eqn:Hd.
    + rewrite !(toggle_interrupt_handler_ignored _ _ _ Hd).
      cbn [t_light toggle_most_recent ped_most_recent]. auto.
    + rewrite !(toggle_interrupt_handler_accepted _ _ _ Hd).
      cbn [t_light toggle_most_recent ped_most_recent].
      split; [|split; reflexivity].
      destruct la, lb. unfold same_but_idle_count, lights in *. cbn in *.
      destruct Hs as (-> & _ & -> & Hl & -> & -> & -> & -> & Hp).
      repeat split; auto.
  - destruct (debounced j pb) eqn:Hd.
    + rewrite !(ped_interrupt_handler_ignored _ _ _ Hd).
      cbn [t_light toggle_most_recent ped_most_recent]. auto.
    + rewrite !(ped_interrupt_handler_accepted _ _ _ Hd).
      cbn [t_light toggle_most_recent ped_most_recent].
      split; [|split; reflexivity].
      destruct la, lb. unfold same_but_idle_count, lights in *. cbn in *.
      destruct Hs as (-> & -> & -> & Hl & -> & -> & -> & -> & Hp).
      destruct current_mode1; cbn; repeat split; auto.
  - split; [|split; reflexivity].
    unfold mytraffic_write.
    destruct (16 <=? count); [exact Hs|].
    destruct (copy_from_user buf count) as [kbuf|]; [|exact Hs].
    destruct (sscanf_u kbuf) as [v|]; [|exact Hs].
    destruct ((1 <=? v) && (v <=? 9)); [|exact Hs].
    cbn [snd].
    destruct la, lb. unfold same_but_idle_count, lights in *. cbn in *.
    destruct Hs as (-> & -> & _ & Hl & -> & -> & -> & -> & Hp).
    repeat split; auto.
  - rewrite !mytraffic_read_light. auto.
Qed.

Lemma same_but_idle_count_run (a b : system) (evs : list event) :
  same_but_idle_count (t_light a) (t_light b) ->
  toggle_most_recent a = toggle_most_recent b ->
  ped_most_recent a = ped_most_recent b ->
  same_but_idle_count (t_light (run a evs)) (t_light (run b evs)) /\
  toggle_most_recent (run a evs) = toggle_most_recent (run b evs) /\
  ped_most_recent (run a evs) = ped_most_recent (run b evs).
Proof.
  intros Hs Ht Hp.
  induction evs as [|ev evs IH] using rev_ind.
  - cbn. auto.
  - unfold run in *. rewrite !fold_left_app. cbn [fold_left].
    destruct IH as (Hs' & Ht' & Hp').
    apply same_but_idle_count_step; assumption.
Qed.

(** The report does not show [ped_cycle_count]. *)
Lemma same_but_idle_count_report (a b : traffic_light) :
  same_but_idle_count a b -> status_report a = status_report b.
Proof.
  destruct a as [m cc pcc r red yel grn req crs it ip].
  destruct b as [m' cc' pcc' r' red' yel' grn' req' crs' it' ip'].
  unfold same_but_idle_count, lights. cbn.
  intros (-> & _ & -> & Hl & -> & -> & _).
  inversion Hl; subst. reflexivity.
Qed.

(** X17.  What [kmalloc] left in the block never shows: two modules
    initialised alike but in blocks with different contents go, under the
    same sequence of ticks, presses, writes and reads, through states with
    the same mode, counter, rate, outputs, flags and debounce stamps and
    the same status report; their [ped_cycle_count] agree whenever a
    crossing is under way. *)
Theorem X17_block_contents_never_show (e : init_env) (m1 m2 : traffic_light)
    (l1 l2 : traffic_light) (evs : list event) :
  mytraffic_init
    (mk_init_env (register_chrdev e) (Some m1) (gpio_request e) (gpio_to_irq e))
    = (0, Some l1) ->
  mytraffic_init
    (mk_init_env (register_chrdev e) (Some m2) (gpio_request e) (gpio_to_irq e))
    = (0, Some l2) ->
  let s1 := run (boot l1) evs in
  let s2 := run (boot l2) evs in
  same_but_idle_count (t_light s1) (t_light s2) /\
  toggle_most_recent s1 = toggle_most_recent s2 /\
  ped_most_recent s1 = ped_most_recent s2 /\
  status_report (t_light s1) = status_report (t_light s2).
Proof.
  intros H1 H2. cbv zeta.
  destruct (mytraffic_init_success _ _ H1) as (m1' & _ & ->).
  destruct (mytraffic_init_success _ _ H2) as (m2' & _ & ->).
  cbn [gpio_to_irq].
  match goal with
  | |- same_but_idle_count (t_light (run ?a _)) (t_light (run ?b _)) /\ _ =>
      destruct (same_but_idle_count_run a b evs) as (Hs & Ht & Hp)
  end.
  { unfold same_but_idle_count. cbn. repeat split; auto. discriminate. }
  { reflexivity. }
  { reflexivity. }
  repeat split; try assumption; try apply Hs.
  apply same_but_idle_count_report. exact Hs.
Qed.

(** ** Loading and unloading *)

Lemma mytraffic_init_trace_ret (e : init_env) (request_irq : Z -> Z) :
  fst (mytraffic_init_trace e request_irq) = fst (mytraffic_init e).
Proof.
  unfold mytraffic_init_trace, mytraffic_init.
  destruct (register_chrdev e mytraffic_major <? 0); [reflexivity|].
  destruct (kmalloc e) as [m|]; [|reflexivity].
  repeat match goal with
         | |- context [if negb (?r =? 0) then _ else _] =>
             destruct (negb (r =? 0)); [reflexivity|]
         end.
  reflexivity.
Qed.

(** X18.  [mytraffic_init] returns 0 exactly when it leaves a state
    behind, and that is exactly when [register_chrdev] did not return a
    negative value, [kmalloc] returned a block and the five GPIO requests
    returned 0.  On every other path the return value is not 0: the
    negative result of [register_chrdev], -ENOMEM, or the result of the
    GPIO request that failed. *)
Theorem X18_init_succeeds_iff_all_requests_do (e : init_env) :
  (fst (mytraffic_init e) = 0 <-> snd (mytraffic_init e) <> None) /\
  (fst (mytraffic_init e) = 0 <->
   0 <= register_chrdev e mytraffic_major /\ kmalloc e <> None /\
   gpio_request e RED = 0 /\ gpio_request e YELLOW = 0 /\
   gpio_request e GREEN = 0 /\ gpio_request e TOGGLE_BTN = 0 /\
   gpio_request e PED_BTN = 0) /\
  (fst (mytraffic_init e) <> 0 ->
   fst (mytraffic_init e) = register_chrdev e mytraffic_major \/
   fst (mytraffic_init e) = - ENOMEM \/
   exists pin,
     In pin [RED; YELLOW; GREEN; TOGGLE_BTN; PED_BTN] /\
     fst (mytraffic_init e) = gpio_request e pin).
Proof.
  unfold mytraffic_init.
  destruct (register_chrdev e mytraffic_major <? 0) eqn:Hreg.
  { apply Z.ltb_lt in Hreg. cbn [fst snd].
    split; [|split]; [split; [lia|congruence] |split; [lia|lia] |auto]. }
  apply Z.ltb_ge in Hreg.
  destruct (kmalloc e) as [m|].
  2: { cbn [fst snd]. unfold ENOMEM.
       split; [|split];
         [split; [lia|congruence]
         |split; [lia|intros (_ & H & _); congruence] |auto]. }
  repeat match goal with
         | |- context [if negb (?r =? 0) then _ else _] =>
             let H := fresh "Hg" in
             destruct (r =? 0) eqn:H; cbn [negb];
             [apply Z.eqb_eq in H|apply Z.eqb_neq in H]
         end;
    cbn [fst snd];
    (split; [|split];
     [ split; [intros; try congruence; try lia | intros; try reflexivity; congruence]
     | split; [intros; try lia; repeat split; (assumption || congruence || lia)
              | intros (_ & _ & ? & ? & ? & ? & ?); try reflexivity; congruence]
     | intros Hne; try congruence; right; right ]).
  - exists PED_BTN. cbn. auto 10.
  - exists TOGGLE_BTN. cbn. auto 10.
  - exists GREEN. cbn. auto 10.
  - exists YELLOW. cbn. auto 10.
  - exists RED. cbn. auto 10.
Qed.

(** The interrupt numbers never change once the module is loaded. *)
Lemma irq_numbers_kept (s0 sys : system) :
  reachable_from s0 sys ->
  irq_toggle (t_light sys) = irq_toggle (t_light s0) /\
  irq_ped (t_light sys) = irq_ped (t_light s0).
Proof.
  intros Hr.
  apply (reachable_from_invariant
           (fun l => irq_toggle l = irq_toggle (t_light s0) /\
                     irq_ped l = irq_ped (t_light s0)) s0);
    try assumption.
  - split; reflexivity.
  - intros l H. destruct (timer_callback_frame l) as (_ & _ & -> & ->). exact H.
  - intros l H. exact H.
  - intros l H _. exact H.
  - intros l v H _. exact H.
Qed.

(** What a successful initialisation was answered. *)
Lemma mytraffic_init_success_requests (e : init_env) (l : traffic_light) :
  mytraffic_init e = (0, Some l) ->
  0 <= register_chrdev e mytraffic_major /\
  gpio_request e RED = 0 /\ gpio_request e YELLOW = 0 /\
  gpio_request e GREEN = 0 /\ gpio_request e TOGGLE_BTN = 0 /\
  gpio_request e PED_BTN = 0.
Proof.
  unfold mytraffic_init.
  destruct (register_chrdev e mytraffic_major <? 0) eqn:Hreg;
    [discriminate|].
  apply Z.ltb_ge in Hreg.
  destruct (kmalloc e) as [m|]; [|discriminate].
  repeat match goal with
         | |- context [if negb (?r =? 0) then _ else _] =>
             let H := fresh "Hg" in
             destruct (r =? 0) eqn:H; cbn [negb];
             [apply Z.eqb_eq in H
             |apply Z.eqb_neq in H; intros Hx; inversion Hx; congruence]
         end.
  intros _. repeat split; assumption.
Qed.

(** X19.  When [mytraffic_init] fails before it has asked for the
    pedestrian button (at [register_chrdev], at [kmalloc], or at the GPIO
    request for red, yellow, green or the toggle button), it has given back
    everything it had acquired by the time it returns, and has used no pin
    it did not hold. *)
Theorem X19_early_failure_releases_everything (e : init_env)
    (request_irq : Z -> Z) :
  register_chrdev e mytraffic_major < 0 \/ kmalloc e = None \/
  gpio_request e RED <> 0 \/ gpio_request e YELLOW <> 0 \/
  gpio_request e GREEN <> 0 \/ gpio_request e TOGGLE_BTN <> 0 ->
  fst (mytraffic_init_trace e request_irq) <> 0 /\
  kcalls_run [] (snd (mytraffic_init_trace e request_irq)) = Some [].
Proof.
  intros Hfail. unfold mytraffic_init_trace.
  destruct (register_chrdev e mytraffic_major <? 0) eqn:Hreg.
  { cbn. rewrite Hreg. apply Z.ltb_lt in Hreg. split; [lia|reflexivity]. }
  destruct (kmalloc e) as [m|].
  2: { cbn. rewrite Hreg. split; [discriminate|reflexivity]. }
  apply Z.ltb_ge in Hreg.
  destruct (gpio_request e RED =? 0) eqn:Hr; cbn [negb].
  2: { cbn. apply Z.ltb_ge in Hreg. rewrite Hreg, Hr.
       apply Z.eqb_neq in Hr. split; [exact Hr|reflexivity]. }
  destruct (gpio_request e YELLOW =? 0) eqn:Hy; cbn [negb].
  2: { cbn. apply Z.ltb_ge in Hreg. rewrite Hreg, Hr, Hy.
       apply Z.eqb_neq in Hy. split; [exact Hy|reflexivity]. }
  destruct (gpio_request e GREEN =? 0) eqn:Hg; cbn [negb].
  2: { cbn. apply Z.ltb_ge in Hreg. rewrite Hreg, Hr, Hy, Hg.
       apply Z.eqb_neq in Hg. split; [exact Hg|reflexivity]. }
  destruct (gpio_request e TOGGLE_BTN =? 0) eqn:Ht; cbn [negb].
  2: { cbn. apply Z.ltb_ge in Hreg. rewrite Hreg, Hr, Hy, Hg, Ht.
       apply Z.eqb_neq in Ht. split; [exact Ht|reflexivity]. }
  apply Z.eqb_eq in Hr, Hy, Hg, Ht.
  exfalso. destruct Hfail as [H | [H | [H | [H | [H | H]]]]];
    try congruence; lia.
Qed.

(** X20.  When the GPIO request for the pedestrian button fails (all
    requests before it having succeeded), [mytraffic_init] returns that
    result after freeing the four pins, the block and the device number,
    but not the interrupt of the toggle button: if [request_irq] had
    registered it, it is still held when the function returns. *)
Theorem X20_pedestrian_gpio_failure_leaves_toggle_irq (e : init_env)
    (request_irq : Z -> Z) :
  0 <= register_chrdev e mytraffic_major -> kmalloc e <> None ->
  gpio_request e RED = 0 -> gpio_request e YELLOW = 0 ->
  gpio_request e GREEN = 0 -> gpio_request e TOGGLE_BTN = 0 ->
  gpio_request e PED_BTN <> 0 ->
  fst (mytraffic_init_trace e request_irq) = gpio_request e PED_BTN /\
  kcalls_run [] (snd (mytraffic_init_trace e request_irq)) =
  Some (if request_irq (gpio_to_irq e TOGGLE_BTN) =? 0
        then [Irq (gpio_to_irq e TOGGLE_BTN)] else []).
Proof.
  intros Hreg Hk Hr Hy Hg Ht Hp. unfold mytraffic_init_trace.
  apply Z.ltb_ge in Hreg. rewrite Hreg.
  destruct (kmalloc e) as [m|]; [|congruence].
  rewrite Hr, Hy, Hg, Ht. cbn [Z.eqb negb].
  apply Z.eqb_neq in Hp. rewrite Hp. cbn [negb fst snd].
  split; [reflexivity|].
  cbn. rewrite Hreg, Hp.
  destruct (request_irq (gpio_to_irq e TOGGLE_BTN) =? 0); reflexivity.
Qed.

(** X21.  After a successful [mytraffic_init] whose two [request_irq]
    calls succeeded, and whatever ticks, presses, writes and reads came in
    between, [mytraffic_exit] gives back exactly what is held: the timer is
    stopped, both interrupts are freed, the three lights are driven to 0
    while their pins are still held, the five pins, the block and the
    device number are released, nothing is left and [t_light] is NULL. *)
Theorem X21_exit_releases_what_init_acquired (e : init_env)
    (request_irq : Z -> Z) (l : traffic_light) (sys : system) :
  mytraffic_init e = (0, Some l) ->
  request_irq (gpio_to_irq e TOGGLE_BTN) = 0 ->
  request_irq (gpio_to_irq e PED_BTN) = 0 ->
  reachable_from (boot l) sys ->
  fst (mytraffic_init_trace e request_irq) = 0 /\
  kcalls_run [] (snd (mytraffic_init_trace e request_irq)) =
    Some [Timer; Irq (gpio_to_irq e PED_BTN); Gpio PED_BTN;
          Irq (gpio_to_irq e TOGGLE_BTN); Gpio TOGGLE_BTN;
          Gpio GREEN; Gpio YELLOW; Gpio RED;
          Block; Chrdev mytraffic_major] /\
  kcalls_run [] (snd (mytraffic_init_trace e request_irq) ++
                 fst (mytraffic_exit (t_light sys))) = Some [] /\
  In (k_gpio_set_value RED 0) (fst (mytraffic_exit (t_light sys))) /\
  In (k_gpio_set_value YELLOW 0) (fst (mytraffic_exit (t_light sys))) /\
  In (k_gpio_set_value GREEN 0) (fst (mytraffic_exit (t_light sys))) /\
  snd (mytraffic_exit (t_light sys)) = None.
Proof.
  intros Hinit Hqt Hqp Hr.
  destruct (irq_numbers_kept _ _ Hr) as [Hit Hip].
  destruct (mytraffic_init_success e l Hinit) as (m & Hk & ->).
  cbn [boot t_light irq_toggle irq_ped] in Hit, Hip.
  destruct (mytraffic_init_success_requests e _ Hinit)
    as (Hreg & Hgr & Hgy & Hgg & Hgt & Hgp).
  unfold mytraffic_exit. cbn [fst snd]. rewrite Hit, Hip.
  unfold mytraffic_init_trace.
  apply Z.ltb_ge in Hreg. rewrite Hreg, Hk, Hgr, Hgy, Hgg, Hgt, Hgp.
  cbn [Z.eqb negb fst snd]. rewrite Hqt, Hqp.
  split; [reflexivity|].
  split; [cbn; rewrite Hreg; cbn; reflexivity|].
  split.
  - cbn. rewrite Hreg. cbn.
    destruct (gpio_to_irq e TOGGLE_BTN =? gpio_to_irq e PED_BTN) eqn:Heq.
    + apply Z.eqb_eq in Heq. rewrite Heq. cbn. rewrite !Z.eqb_refl. reflexivity.
    + cbn. rewrite !Z.eqb_refl. cbn. rewrite Z.eqb_refl. reflexivity.
  - cbn. auto 20.
Qed.

End Platform.

(** * The theorems at concrete states *)

Local Open Scope string_scope.
Local Open Scope Z_scope.

Lemma C1_normal_cycle_from_fresh_witness :
  lights fresh :: tick_outputs 1 5 fresh = normal_cycle /\
  tick_outputs 6 6 fresh = normal_cycle /\
  tick_outputs 1 6 fresh =
    [green_only; green_only; yellow_only; red_only; red_only; green_only] /\
  tick_outputs 7 6 fresh = tick_outputs 1 6 fresh.
Proof.
  apply (C1_normal_cycle_from_fresh (ok_env zeroed) fresh).
  reflexivity.
Defined.

(** C1 as stated fails: counted from the first tick, the third output of
    the fresh state is yellow, so the outputs after ticks 1 to 6 are not
    green, green, green, yellow, red, red. *)
Lemma C1_counterexample :
  mytraffic_init (ok_env zeroed) = (0, Some fresh) /\
  lights (ticks 3 fresh) = yellow_only /\
  tick_outputs 1 6 fresh <> normal_cycle.
Proof.
  split; [reflexivity|]. split; [reflexivity|].
  vm_compute. discriminate.
Qed.

Lemma reachable_run_from_fresh (evs : list event) :
  reachable bits32 msecs_to_jiffies_hz100
    (run bits32 msecs_to_jiffies_hz100 (boot fresh) evs).
Proof.
  exists (ok_env zeroed), fresh.
  split; [reflexivity|apply reachable_from_run].
Qed.

Lemma C2_outputs_one_of_five_witness :
  valid_lights
    (lights (t_light (run bits32 msecs_to_jiffies_hz100 (boot fresh)
                        pressed_again))).
Proof.
  apply (C2_outputs_one_of_five bits32 msecs_to_jiffies_hz100).
  exists (ok_env zeroed), fresh.
  split; [reflexivity|apply reachable_from_run].
Defined.

(** Each of the five combinations is commanded in some reachable state. *)
Lemma all_five_outputs_occur (c : bool * bool * bool) :
  valid_lights c ->
  exists evs,
    lights (t_light (run bits32 msecs_to_jiffies_hz100 (boot fresh) evs)) = c.
Proof.
  intros [-> | [-> | [-> | [-> | ->]]]].
  - exists [TogglePress 1000; Tick; Tick]. reflexivity.
  - exists [Tick; Tick; Tick]. reflexivity.
  - exists [Tick; Tick; Tick; Tick]. reflexivity.
  - exists []. reflexivity.
  - exists crossing_started. reflexivity.
Qed.

Lemma C3_request_served_in_stop_phase_witness :
  lights (timer_callback waiting) = red_yellow /\
  lights (ticks 5 (timer_callback waiting)) = red_yellow /\
  lights (ticks 6 (timer_callback waiting)) = green_only /\
  cycle_count (ticks 6 (timer_callback waiting)) = 0.
Proof.
  destruct (C3_request_served_in_stop_phase waiting eq_refl eq_refl)
    as (_ & _ & H).
  destruct (H eq_refl (or_introl eq_refl))
    as (H1 & _ & _ & _ & H5 & H6 & H7 & _).
  exact (conj H1 (conj (H5 5%nat (conj (le_S _ _ (le_S _ _ (le_S _ _ (le_S _ _ (le_n 1))))) (le_n 5)))
                        (conj H6 H7))).
Defined.

Lemma C4_request_and_crossing_flags_witness :
  ped_requested (timer_callback waiting) &&
  ped_crossing (timer_callback waiting) = false.
Proof.
  apply (C4_request_and_crossing_flags bits32 msecs_to_jiffies_hz100 waiting).
  reflexivity.
Defined.

(** C4 as stated fails: a second press during the crossing leaves both
    flags true in a reachable state, and they are still both true after
    the next tick. *)
Lemma C4_counterexample :
  let sys := run bits32 msecs_to_jiffies_hz100 (boot fresh) pressed_again in
  reachable bits32 msecs_to_jiffies_hz100 sys /\
  ped_requested (t_light sys) = true /\ ped_crossing (t_light sys) = true /\
  ped_requested (timer_callback (t_light sys)) = true /\
  ped_crossing (timer_callback (t_light sys)) = true.
Proof.
  split; [apply reachable_run_from_fresh|].
  repeat split.
Qed.

Lemma C5_ped_cycle_count_range_witness :
  0 <= ped_cycle_count
         (t_light (run bits32 msecs_to_jiffies_hz100 (boot fresh)
                     crossing_fifth_tick)) <= 5.
Proof.
  apply (C5_ped_cycle_count_range bits32 msecs_to_jiffies_hz100
           (ok_env zeroed) fresh).
  - reflexivity.
  - reflexivity.
  - apply reachable_from_run.
Defined.

(** C5 as stated fails: after the fifth tick of a crossing the count is 5,
    which is outside [0,5), in a state reached from a zeroed block. *)
Lemma C5_counterexample :
  let sys := run bits32 msecs_to_jiffies_hz100 (boot fresh)
               crossing_fifth_tick in
  reachable bits32 msecs_to_jiffies_hz100 sys /\
  ped_cycle_count (t_light sys) = 5 /\
  ~ (0 <= ped_cycle_count (t_light sys) < 5).
Proof.
  split; [apply reachable_run_from_fresh|].
  split; [reflexivity|].
  change (ped_cycle_count _) with 5. lia.
Qed.

Lemma C8_write_return_value_witness :
  fst (mytraffic_write fresh "10" 2) = 2 /\
  mytraffic_write fresh "1234567890123456" 16 = (- EINVAL, fresh) /\
  mytraffic_write fresh "5" 2 = (- EFAULT, fresh).
Proof.
  split; [|split].
  - apply (proj1 (C8_write_return_value fresh "10" 2));
      [reflexivity|discriminate].
  - apply (proj1 (proj2 (C8_write_return_value fresh "1234567890123456" 16))).
    discriminate.
  - apply (proj2 (proj2 (C8_write_return_value fresh "5" 2))); reflexivity.
Defined.

(** C8 as stated fails: a write of 16 bytes returns -EINVAL, not 16. *)
Lemma C8_counterexample :
  fst (mytraffic_write fresh "1234567890123456" 16) = -22 /\
  fst (mytraffic_write fresh "1234567890123456" 16) <> 16.
Proof.
  split; [reflexivity|]. vm_compute. discriminate.
Qed.

Lemma C9_fresh_status_report_witness :
  read_data (mytraffic_read fresh 4096 4096 0) = fresh_report /\
  read_ret (mytraffic_read fresh 4096 4096 0) = strlen fresh_report /\
  read_f_pos (mytraffic_read fresh 4096 4096 0) = strlen fresh_report /\
  read_light (mytraffic_read fresh 4096 4096 0) = fresh.
Proof.
  apply (C9_fresh_status_report (ok_env zeroed) fresh 4096 4096).
  - reflexivity.
  - discriminate.
  - discriminate.
Defined.

Lemma C10_toggle_frame_witness :
  let l := t_light (run bits32 msecs_to_jiffies_hz100 (boot fresh)
                      crossing_started) in
  let l' := snd (toggle_interrupt_handler bits32 msecs_to_jiffies_hz100
                   3000 0 l) in
  current_mode l' = FLASHING_RED /\ cycle_count l' = 0 /\
  ped_crossing l' = true /\ lights l' = red_yellow.
Proof.
  cbv zeta.
  destruct (C10_toggle_frame bits32 msecs_to_jiffies_hz100 3000 0
              (t_light (run bits32 msecs_to_jiffies_hz100 (boot fresh)
                          crossing_started)) eq_refl)
    as (_ & Hm & Hc & _ & Hx & _ & _ & Hl & _).
  exact (conj Hm (conj Hc (conj Hx Hl))).
Defined.

(** * The further properties at concrete states *)

Lemma X1_normal_cycle_any_tick_witness :
  lights (ticks 4 fresh) =
    phase_lights ((cycle_count fresh + Z.of_nat 4) mod 6) /\
  lights (ticks (4 + 6) fresh) = lights (ticks 4 fresh) /\
  lights (ticks 2 negative_count) = green_only.
Proof.
  destruct (X1_normal_cycle_any_tick 4 fresh eq_refl eq_refl eq_refl
              ltac:(unfold INT_MIN; cbn; lia)
              ltac:(unfold INT_MAX; cbn; lia) ltac:(lia))
    as (_ & _ & Hmod & Hper & _).
  destruct (X1_normal_cycle_any_tick 2 negative_count eq_refl eq_refl eq_refl
              ltac:(unfold INT_MIN; cbn; lia)
              ltac:(unfold INT_MAX; cbn; lia) ltac:(lia))
    as (_ & _ & _ & _ & Hneg).
  exact (conj (Hmod ltac:(cbn; lia))
           (conj (Hper ltac:(cbn; lia) ltac:(unfold INT_MAX; cbn; lia))
              (Hneg ltac:(cbn; lia)))).
Defined.

Lemma X2_flashing_ticks_freeze_pedestrian_state_witness :
  ped_crossing (ticks 7 interrupted_crossing) = true /\
  ped_cycle_count (ticks 7 interrupted_crossing) = 3.
Proof.
  destruct (X2_flashing_ticks_freeze_pedestrian_state 7 interrupted_crossing)
    as (_ & _ & Hc & Hp & _).
  - discriminate.
  - exact (conj Hc Hp).
Defined.

Lemma X3_flashing_alternates_witness :
  lights (ticks 3 interrupted_crossing) =
    flash_lights FLASHING_RED (0 + Z.of_nat 3) /\
  lights (ticks 4 interrupted_crossing) <>
    lights (ticks 3 interrupted_crossing) /\
  lights (ticks 1 interrupted_crossing) = red_only /\
  lights (ticks 2 (set_current_mode negative_count FLASHING_RED)) = all_off.
Proof.
  destruct (X3_flashing_alternates 3 interrupted_crossing
              ltac:(discriminate)
              ltac:(unfold INT_MIN; cbn; lia)
              ltac:(unfold INT_MAX; cbn; lia) ltac:(lia))
    as (H1 & H2 & H3 & _).
  destruct (X3_flashing_alternates 2
              (set_current_mode negative_count FLASHING_RED)
              ltac:(discriminate)
              ltac:(unfold INT_MIN; cbn; lia)
              ltac:(unfold INT_MAX; cbn; lia) ltac:(lia))
    as (_ & _ & _ & H4).
  exact (conj H1 (conj (H2 ltac:(cbn; lia))
                    (conj (H3 eq_refl) (H4 ltac:(cbn; lia))))).
Defined.

Lemma X4_request_served_within_five_ticks_witness :
  exists k : nat,
    (1 <= k <= 5)%nat /\
    ped_crossing (ticks k (set_ped_requested fresh true)) = true /\
    ped_requested (ticks k (set_ped_requested fresh true)) = false /\
    ped_cycle_count (ticks k (set_ped_requested fresh true)) = 0 /\
    lights (ticks k (set_ped_requested fresh true)) = red_yellow /\
    (forall i, (i < k)%nat ->
       ped_crossing (ticks i (set_ped_requested fresh true)) = false /\
       ped_requested (ticks i (set_ped_requested fresh true)) = true).
Proof.
  apply (X4_request_served_within_five_ticks (set_ped_requested fresh true));
    try reflexivity; unfold INT_MAX; cbn; lia.
Defined.

Lemma X5_green_after_counter_wraps_witness :
  lights (ticks 3 at_int_max) = green_only /\
  cycle_count (ticks 3 at_int_max) = Z.of_nat 3 - 1 - 2 ^ 31 /\
  ped_crossing (ticks 3 at_int_max) = false /\
  ped_requested (ticks 3 at_int_max) = ped_requested at_int_max.
Proof.
  apply (X5_green_after_counter_wraps 3 at_int_max);
    try reflexivity; try lia.
Defined.

Lemma X6_report_is_never_truncated_witness :
  let l := t_light (run bits32 msecs_to_jiffies_hz100 (boot fresh)
                      [WriteRate "9" 1; TogglePress 500; Tick]) in
  status_report l = (full_report l, strlen (full_report l)) /\
  86 <= strlen (full_report l) <= 102.
Proof.
  apply (X6_report_is_never_truncated bits32 msecs_to_jiffies_hz100).
  exists (ok_env zeroed), fresh.
  split; [reflexivity|apply reachable_from_run].
Defined.

Lemma X7_read_at_offset_witness :
  read_ret (mytraffic_read fresh 64 10 100) = 0 /\
  read_data (mytraffic_read fresh 64 10 6) = "normal" ++ LF ++ "Cyc" /\
  read_f_pos (mytraffic_read fresh 64 10 6) = 16 /\
  read_ret (mytraffic_read fresh 4 10 6) = - EFAULT.
Proof.
  assert (Hrate : 1 <= rate fresh <= 9) by (cbn; lia).
  destruct (X7_read_at_offset fresh 64 10 100 Hrate ltac:(lia) ltac:(lia))
    as (Ha & _ & _).
  destruct (X7_read_at_offset fresh 64 10 6 Hrate ltac:(lia) ltac:(lia))
    as (_ & Hb & _).
  destruct (X7_read_at_offset fresh 4 10 6 Hrate ltac:(lia) ltac:(lia))
    as (_ & _ & Hc).
  destruct (Ha ltac:(cbv; discriminate)) as (Ha1 & _).
  destruct (Hb ltac:(reflexivity) ltac:(cbv; discriminate))
    as (_ & Hb2 & _ & Hb4).
  destruct (Hc ltac:(reflexivity) ltac:(reflexivity)) as (Hc1 & _).
  exact (conj Ha1 (conj Hb2 (conj Hb4 Hc1))).
Defined.

Lemma X8_reads_compose_witness :
  (read_data (mytraffic_read fresh 4096 40 0) ++
   read_data (mytraffic_read fresh 4096 4000
                (read_f_pos (mytraffic_read fresh 4096 40 0))))%string =
  read_data (mytraffic_read fresh 4096 (40 + 4000) 0).
Proof.
  apply (X8_reads_compose fresh 4096 40 4000 0); lia.
Defined.

Lemma X9_written_rate_is_reported_witness :
  mytraffic_write fresh ("5" ++ LF) 2 = (2, set_rate fresh 5).
Proof.
  apply (X9_written_rate_is_reported fresh "5"%char LF);
    try reflexivity; cbv; discriminate.
Defined.

Lemma X10_unparsable_write_changes_nothing_witness :
  mytraffic_write fresh "abc" 0 = (0, fresh) /\
  mytraffic_write fresh "-5" (strlen "-5") = (strlen "-5", fresh).
Proof.
  split.
  - apply (proj1 (X10_unparsable_write_changes_nothing fresh "abc")).
  - apply (proj2 (X10_unparsable_write_changes_nothing fresh "-5")
             "-"%char "5"); reflexivity.
Defined.

Lemma X11_write_touches_rate_only_witness :
  snd (mytraffic_write fresh "7" 1) =
    set_rate fresh (rate (snd (mytraffic_write fresh "7" 1))) /\
  (fst (mytraffic_write fresh "7" 1) = 1 \/
   fst (mytraffic_write fresh "7" 1) = - EINVAL \/
   fst (mytraffic_write fresh "7" 1) = - EFAULT) /\
  (fst (mytraffic_write fresh "7" 1) < 0 ->
   snd (mytraffic_write fresh "7" 1) = fresh).
Proof.
  apply (X11_write_touches_rate_only fresh "7" 1). lia.
Defined.

Lemma X12_toggle_debounce_witness :
  current_mode
    (snd (toggle_interrupt_handler bits32 msecs_to_jiffies_hz100 1010 1000
            (snd (toggle_interrupt_handler bits32 msecs_to_jiffies_hz100
                    1000 0 fresh)))) = FLASHING_RED /\
  current_mode
    (snd (toggle_interrupt_handler bits32 msecs_to_jiffies_hz100 1025 1000
            (snd (toggle_interrupt_handler bits32 msecs_to_jiffies_hz100
                    1000 0 fresh)))) = FLASHING_YELLOW.
Proof.
  destruct (X12_toggle_debounce bits32 msecs_to_jiffies_hz100
              1000 1010 0 fresh eq_refl) as (Ha & _).
  destruct (X12_toggle_debounce bits32 msecs_to_jiffies_hz100
              1000 1025 0 fresh eq_refl) as (_ & Hb).
  destruct (Ha eq_refl) as (_ & _ & Ha3).
  destruct (Hb eq_refl) as (_ & Hb2 & _).
  exact (conj Ha3 Hb2).
Defined.


Lemma X14_three_toggles_restore_mode_witness :
  run bits32 msecs_to_jiffies_hz100
    (run bits32 msecs_to_jiffies_hz100 (boot fresh) crossing_started)
    [TogglePress 3000; TogglePress 4000; TogglePress 5000] =
  mk_system
    (set_cycle_count
       (t_light (run bits32 msecs_to_jiffies_hz100 (boot fresh)
                   crossing_started)) 0)
    5000
    (ped_most_recent (run bits32 msecs_to_jiffies_hz100 (boot fresh)
                        crossing_started)).
Proof.
  apply (X14_three_toggles_restore_mode bits32 msecs_to_jiffies_hz100);
    reflexivity.
Defined.

Lemma X15_pedestrian_presses_add_up_to_one_witness :
  t_light (run bits32 msecs_to_jiffies_hz100 (boot interrupted_crossing)
             (map PedPress [1000; 1010; 2000])) = interrupted_crossing.
Proof.
  apply (proj1 (proj2 (X15_pedestrian_presses_add_up_to_one
                         bits32 msecs_to_jiffies_hz100
                         [1000; 1010; 2000] (boot interrupted_crossing)))).
  discriminate.
Defined.

Lemma X16_count_is_zero_outside_crossing_witness :
  ped_cycle_count
    (t_light (run bits32 msecs_to_jiffies_hz100 (boot fresh)
                (crossing_fifth_tick ++ [Tick]))) = 0.
Proof.
  apply (X16_count_is_zero_outside_crossing bits32 msecs_to_jiffies_hz100
           (ok_env zeroed) fresh).
  - reflexivity.
  - reflexivity.
  - apply reachable_from_run.
  - reflexivity.
Defined.

Lemma X17_block_contents_never_show_witness :
  status_report
    (t_light (run bits32 msecs_to_jiffies_hz100
                (boot (mk_traffic_light NORMAL 0 0 1 false false true
                         false false 126 146)) pressed_again)) =
  status_report
    (t_light (run bits32 msecs_to_jiffies_hz100
                (boot (mk_traffic_light NORMAL 0 7 1 false false true
                         false false 126 146)) pressed_again)).
Proof.
  apply (X17_block_contents_never_show bits32 msecs_to_jiffies_hz100
           (ok_env zeroed) zeroed stale); reflexivity.
Defined.

Lemma X18_init_succeeds_iff_all_requests_do_witness :
  fst (mytraffic_init (env_failing_gpio GREEN)) =
    register_chrdev (env_failing_gpio GREEN) mytraffic_major \/
  fst (mytraffic_init (env_failing_gpio GREEN)) = - ENOMEM \/
  exists pin,
    In pin [RED; YELLOW; GREEN; TOGGLE_BTN; PED_BTN] /\
    fst (mytraffic_init (env_failing_gpio GREEN)) =
      gpio_request (env_failing_gpio GREEN) pin.
Proof.
  apply (proj2 (proj2 (X18_init_succeeds_iff_all_requests_do
                         (env_failing_gpio GREEN)))).
  discriminate.
Defined.

Lemma X19_early_failure_releases_everything_witness :
  fst (mytraffic_init_trace (env_failing_gpio GREEN) (fun _ => 0)) <> 0 /\
  kcalls_run []
    (snd (mytraffic_init_trace (env_failing_gpio GREEN) (fun _ => 0))) =
  Some [].
Proof.
  apply (X19_early_failure_releases_everything (env_failing_gpio GREEN)).
  right. right. right. right. left. discriminate.
Defined.

Lemma X20_pedestrian_gpio_failure_leaves_toggle_irq_witness :
  fst (mytraffic_init_trace (env_failing_gpio PED_BTN) (fun _ => 0)) = -16 /\
  kcalls_run []
    (snd (mytraffic_init_trace (env_failing_gpio PED_BTN) (fun _ => 0))) =
  Some [Irq 126].
Proof.
  apply (X20_pedestrian_gpio_failure_leaves_toggle_irq
           (env_failing_gpio PED_BTN) (fun _ => 0));
    try reflexivity; discriminate.
Defined.

Lemma X21_exit_releases_what_init_acquired_witness :
  kcalls_run []
    (snd (mytraffic_init_trace (ok_env zeroed) (fun _ => 0)) ++
     fst (mytraffic_exit
            (t_light (run bits32 msecs_to_jiffies_hz100 (boot fresh)
                        pressed_again)))) = Some [].
Proof.
  destruct (X21_exit_releases_what_init_acquired bits32 msecs_to_jiffies_hz100
              (ok_env zeroed) (fun _ => 0) fresh
              (run bits32 msecs_to_jiffies_hz100 (boot fresh) pressed_again)
              eq_refl eq_refl eq_refl (reachable_from_run _ _ _ _))
    as (_ & _ & H & _).
  exact H.
Defined.

Lemma X22_rate_between_1_and_9_witness :
  1 <= rate (t_light (run bits32 msecs_to_jiffies_hz100 (boot fresh)
                        [WriteRate "5" 1; Tick; WriteRate "10" 2])) <= 9.
Proof.
  apply (proj1 (X22_rate_between_1_and_9 bits32 msecs_to_jiffies_hz100)).
  exists (ok_env zeroed), fresh.
  split; [reflexivity|apply reachable_from_run].
Defined.
